(** * plainbox.impl.dbus.service: DBus properties support

    A shallow embedding of [plainbox/impl/dbus/service.py]: the [property]
    descriptor, the per-class property-interface map with its lazy cache,
    and the [Get] / [Set] / [GetAll] handlers of [Object].

    Python objects that the code shares by reference (the cached map) carry
    an identity next to their contents.  Python dictionaries keep insertion
    order, and [GetAll] runs the getters in that order, so dictionaries are
    association lists here. *)

From Stdlib Require Import List String Ascii Bool Arith ZArith Lia.
From Stdlib Require Import Sorted OrderedTypeEx.
Import ListNotations.
Local Open Scope string_scope.
Local Open Scope list_scope.

Set Implicit Arguments.

(** ** Python dictionaries, in insertion order *)

Section Dict.
Variables K V : Type.
Variable eqb : K -> K -> bool.

Definition dict := list (K * V).

(** [d.get(k)] *)
Fixpoint dict_get (d : dict) (k : K) : option V :=
  match d with
  | [] => None
  | (k', v) :: d' => if eqb k k' then Some v else dict_get d' k
  end.

(** [k in d] *)
Definition dict_mem (d : dict) (k : K) : bool :=
  match dict_get d k with Some _ => true | None => false end.

(** [d[k] = v]: an existing key keeps its place, a new key goes last. *)
Fixpoint dict_set (d : dict) (k : K) (v : V) : dict :=
  match d with
  | [] => [(k, v)]
  | (k', v') :: d' =>
      if eqb k k' then (k', v) :: d' else (k', v') :: dict_set d' k v
  end.

Definition dict_keys (d : dict) : list K := map fst d.
Definition dict_values (d : dict) : list V := map snd d.
End Dict.

Definition okey_eqb (a b : option string) : bool :=
  match a, b with
  | Some x, Some y => String.eqb x y
  | None, None => true
  | _, _ => false
  end.

Definition sn_eqb (a b : nat * string) : bool :=
  Nat.eqb (fst a) (fst b) && String.eqb (snd a) (snd b).

(** ** Values, exceptions, results *)

(** The values that travel over the bus. *)
Inductive pyval :=
| VNone
| VBool (b : bool)
| VInt (n : Z)
| VStr (s : string).

(** Exceptions as the [except] clauses of the handlers tell them apart:
    [dbus.exceptions.DBusException] (and its subclasses) with its arguments;
    every other class derived from [Exception]; and the classes derived
    from [BaseException] only, such as [KeyboardInterrupt] and [SystemExit].
    The last two kinds are given by class name and by the text of their
    [repr], which is what [{!r}] formats. *)
Inductive exn :=
| DBusException (args : list string)
| PyException (cls : string) (repr : string)
| PyBaseException (cls : string) (repr : string).

Inductive result (A : Type) :=
| Ok (a : A)
| Raise (e : exn).
Arguments Ok {A} a.
Arguments Raise {A} e.

(** [str(x)], what [{}] formats, for a property name that may be [None]. *)
Definition str_key (k : option string) : string :=
  match k with Some s => s | None => "None" end.

(** [dbus.PROPERTIES_IFACE], a constant of the dbus package. *)
Definition PROPERTIES_IFACE : string := "org.freedesktop.DBus.Properties".

(** ** The world user code runs in *)

Definition cname := string.

Record instance := mkInstance { i_id : nat; i_class : cname }.

Inductive logarg :=
| LStr (s : string)
| LKey (k : option string)
| LVal (v : pyval)
| LCls (c : cname)
| LProp (iface : string) (pname : option string)
| LMap (m : dict string (dict (option string) string))
| LChanged (m : list (string * pyval))
| LNames (l : list string).

(** [logger.debug] and [logger.exception]; the latter records the exception
    being handled. *)
Inductive logrec :=
| LogDebug (fmt : string) (args : list logarg)
| LogException (fmt : string) (args : list logarg) (exc : exn).

(** One emission of the [PropertiesChanged] signal. *)
Record signal_msg := mkSignal {
  sig_sender : instance;
  sig_interface : string;
  sig_changed : list (string * pyval);
  sig_invalidated : list string
}.

(** What accessor code can read and change: the instances' own attributes,
    the signals put on the bus and the log. *)
Record world := mkWorld {
  w_attrs : dict (nat * string) pyval;
  w_signals : list signal_msg;
  w_log : list logrec
}.

Definition w_logger (r : logrec) (w : world) : world :=
  mkWorld (w_attrs w) (w_signals w) (w_log w ++ [r]).

(** A Python function taking [self] and positional arguments. *)
Record pyfunc := mkFunc {
  fn_name : string;
  fn_doc : option string;
  fn_call : instance -> list pyval -> world -> result pyval * world
}.

(** ** class property *)

Record property := mkProperty {
  __name__ : option string;
  __doc__ : option string;
  _signature : string;
  _dbus_interface : string;
  _dbus_property : option string;
  _getf : option pyfunc;
  _setf : option pyfunc;
  _implicit_setter : bool
}.

(** A Python object as the code meets it: a [property] descriptor or any
    other value. *)
Inductive pyobj :=
| OProp (p : property)
| OVal (v : pyval).

(** ** Classes *)

(** A class as the code sees it: its [__mro__] past the class itself and its
    own [__dict__].  [_property_iface_map], the one class attribute that is
    assigned at run time, lives in the state below. *)
Record pyclass := mkClass {
  c_mro : list cname;
  c_dict : dict string pyobj
}.

Definition classtable := dict cname pyclass.

Definition class_dict (ct : classtable) (c : cname) : dict string pyobj :=
  match dict_get String.eqb ct c with
  | Some k => c_dict k
  | None => []
  end.

Definition mro (ct : classtable) (c : cname) : list cname :=
  c :: match dict_get String.eqb ct c with
       | Some k => c_mro k
       | None => []
       end.

(** Attribute lookup on the type: the first [__dict__] along the MRO that
    has the name. *)
Fixpoint mro_lookup (ct : classtable) (l : list cname) (name : string)
    : option pyobj :=
  match l with
  | [] => None
  | c :: l' =>
      match dict_get String.eqb (class_dict ct c) name with
      | Some o => Some o
      | None => mro_lookup ct l' name
      end
  end.

Fixpoint insert_name (x : string) (l : list string) : list string :=
  match l with
  | [] => [x]
  | y :: l' =>
      match String.compare x y with
      | Lt => x :: l
      | Eq => l
      | Gt => y :: insert_name x l'
      end
  end.

(** [dir(cls)]: the names in the class's [__dict__] and in those of its
    bases, each once, sorted. *)
Definition dir (ct : classtable) (cls : cname) : list string :=
  fold_right insert_name []
    (List.concat (map (fun c => dict_keys (class_dict ct c)) (mro ct cls))).

(** ** State *)

Definition pif := dict string (dict (option string) string).

(** A dictionary object: identity and contents. *)
Record dictobj := mkDictObj { d_id : nat; d_items : pif }.

(** Ghost record of attribute accesses and accessor calls, kept for the
    statements below; the code does not read it. *)
Inductive event :=
| EvGetattr (self : instance) (name : string)
| EvSetattr (self : instance) (name : string) (value : pyval)
| EvCall (f : pyfunc) (self : instance) (args : list pyval).

(** [st_pim] holds, for each class that has been assigned one, the value of
    [_property_iface_map] in its own [__dict__].  [Object], the last class
    of every MRO here, has [_property_iface_map = None] from its class body. *)
Record state := mkState {
  st_world : world;
  st_pim : dict cname dictobj;
  st_next : nat;
  st_trace : list event
}.

Definition init_state : state := mkState (mkWorld [] [] []) [] 0 [].

(** ** A state and exception monad *)

Definition M (A : Type) := state -> result A * state.

Definition ret {A} (a : A) : M A := fun st => (Ok a, st).

Definition raise {A} (e : exn) : M A := fun st => (Raise e, st).

Definition bind {A B} (m : M A) (k : A -> M B) : M B :=
  fun st =>
    match m st with
    | (Ok a, st') => k a st'
    | (Raise e, st') => (Raise e, st')
    end.

(** [try: m except Exception as e: h e] *)
Definition try_except {A} (m : M A) (h : exn -> M A) : M A :=
  fun st =>
    match m st with
    | (Ok a, st') => (Ok a, st')
    | (Raise e, st') => h e st'
    end.

Notation "x <- m ;; k" := (bind m (fun x => k))
  (at level 61, m at next level, right associativity).
Notation "m ;; k" := (bind m (fun _ => k))
  (at level 61, right associativity).

Definition in_world {A} (f : world -> result A * world) : M A :=
  fun st =>
    let (r, w) := f (st_world st) in
    (r, mkState w (st_pim st) (st_next st) (st_trace st)).

Definition logger (r : logrec) : M unit :=
  in_world (fun w => (Ok tt, w_logger r w)).

Definition ghost (e : event) : M unit :=
  fun st =>
    (Ok tt, mkState (st_world st) (st_pim st) (st_next st) (st_trace st ++ [e])).

(** Calling a Python function. *)
Definition call (f : pyfunc) (self : instance) (args : list pyval) : M pyval :=
  ghost (EvCall f self args) ;;
  in_world (fn_call f self args).

(** ** Methods of property *)

Module Property.

(** [property.__init__] *)
Definition __init__ (signature dbus_interface : string)
    (dbus_property : option string) (setter : bool) : property :=
  mkProperty None None signature dbus_interface dbus_property
             None None setter.

Definition ill_defined : exn :=
  PyException "TypeError"
    "TypeError('property provides neither readable nor writable')".

(** [property.dbus_access_flag].  A bound accessor is a function object,
    which is true in a boolean context. *)
Definition dbus_access_flag (self : property) : result string :=
  match _getf self, _setf self with
  | Some _, Some _ => Ok "readwrite"
  | Some _, None => Ok "read"
  | None, Some _ => Ok "write"
  | None, None => Raise ill_defined
  end.

Definition dbus_interface (self : property) : string := _dbus_interface self.
Definition dbus_property (self : property) : option string :=
  _dbus_property self.
Definition signature (self : property) : string := _signature self.

(** [property.setter], the decorator it returns applied to [func] *)
Definition setter (self : property) (func : pyfunc) : property :=
  mkProperty (__name__ self) (__doc__ self) (_signature self)
             (_dbus_interface self) (_dbus_property self)
             (_getf self) (Some func) (_implicit_setter self).

(** [property.getter], the decorator it returns applied to [func] *)
Definition getter (self : property) (func : pyfunc) : property :=
  mkProperty (__name__ self) (__doc__ self) (_signature self)
             (_dbus_interface self) (_dbus_property self)
             (Some func) (_setf self) (_implicit_setter self).

(** [property.__call__] *)
Definition __call__ (self : property) (func : pyfunc) : property :=
  let self1 :=
    mkProperty (Some (fn_name func))
               (match __doc__ self with
                | None => fn_doc func
                | Some d => Some d
                end)
               (_signature self) (_dbus_interface self)
               (match _dbus_property self with
                | None => Some (fn_name func)
                | Some n => Some n
                end)
               (_getf self) (_setf self) (_implicit_setter self) in
  if _implicit_setter self1 then setter self1 func else getter self1 func.

Definition not_readable : exn := DBusException ["property is not readable"].
Definition not_writable : exn := DBusException ["property is not writable"].

(** [property.__get__(instance, owner)] *)
Definition __get__ (self : property) (instance : option instance)
    : M pyobj :=
  match instance with
  | None => ret (OProp self)
  | Some i =>
      match _getf self with
      | None => raise not_readable
      | Some getf => v <- call getf i [] ;; ret (OVal v)
      end
  end.

(** [property.__set__(instance, value)] *)
Definition __set__ (self : property) (instance : instance) (value : pyval)
    : M unit :=
  match _setf self with
  | None => raise not_writable
  | Some setf => call setf instance [value] ;; ret tt
  end.

End Property.

(** ** class InterfaceType *)

Definition dquote : string := String (ascii_of_nat 34) EmptyString.
Definition newline : string := String (ascii_of_nat 10) EmptyString.

Module InterfaceType.

(** [InterfaceType._reflect_on_property(cls, func)]: the three format
    arguments are evaluated in order, the access flag last. *)
Definition _reflect_on_property (func : property) : result string :=
  match Property.dbus_access_flag func with
  | Ok flag =>
      Ok ("    <property name=" ++ dquote ++ str_key (_dbus_property func)
          ++ dquote ++ " type=" ++ dquote ++ _signature func
          ++ dquote ++ " access=" ++ dquote ++ flag ++ dquote ++ "/>"
          ++ newline)%string
  | Raise e => Raise e
  end.

End InterfaceType.

(** ** Attribute access on instances *)

Definition attribute_error (self : instance) (name : string) : exn :=
  PyException "AttributeError"
    ("AttributeError(" ++ dquote ++ "'" ++ i_class self
     ++ "' object has no attribute '" ++ name ++ "'" ++ dquote ++ ")").

(** [getattr(self, name)]: a [property] found on the type is a data
    descriptor and wins; then the instance's own attributes; then a plain
    class attribute. *)
Definition getattr (ct : classtable) (self : instance) (name : string)
    : M pyobj :=
  ghost (EvGetattr self name) ;;
  match mro_lookup ct (mro ct (i_class self)) name with
  | Some (OProp p) => Property.__get__ p (Some self)
  | found =>
      fun st =>
        match dict_get sn_eqb (w_attrs (st_world st)) (i_id self, name) with
        | Some v => (Ok (OVal v), st)
        | None =>
            match found with
            | Some o => (Ok o, st)
            | None => (Raise (attribute_error self name), st)
            end
        end
  end.

(** [setattr(self, name, value)] *)
Definition setattr (ct : classtable) (self : instance) (name : string)
    (value : pyval) : M unit :=
  ghost (EvSetattr self name value) ;;
  match mro_lookup ct (mro ct (i_class self)) name with
  | Some (OProp p) => Property.__set__ p self value
  | _ =>
      in_world (fun w =>
        (Ok tt, mkWorld (dict_set sn_eqb (w_attrs w) (i_id self, name) value)
                        (w_signals w) (w_log w)))
  end.

(** ** class Object *)

Module Object.

Definition no_such_interface (interface_name : string) : exn :=
  DBusException
    [PROPERTIES_IFACE; ("No such interface " ++ interface_name)%string].

Definition no_such_property (interface_name : string)
    (property_name : option string) : exn :=
  DBusException
    [PROPERTIES_IFACE;
     ("No such property " ++ interface_name ++ ":"
      ++ str_key property_name)%string].

Definition unable_to_get (interface_name : string)
    (property_name : option string) (exc_repr : string) : exn :=
  DBusException
    [PROPERTIES_IFACE;
     ("Unable to get property interface/property " ++ interface_name ++ ":"
      ++ str_key property_name ++ ": " ++ exc_repr)%string].

Definition unable_to_set (interface_name : string)
    (property_name : option string) (exc_repr : string) : exn :=
  DBusException
    [PROPERTIES_IFACE;
     ("Unable to set property " ++ interface_name ++ ":"
      ++ str_key property_name ++ ": " ++ exc_repr)%string].

(** One round of the loop of [_build_property_iface_map]. *)
Definition build_step (ct : classtable) (cls : cname)
    (acc : pif * list logrec) (name : string) : pif * list logrec :=
  match dict_get String.eqb (class_dict ct cls) name with
  | Some (OProp obj) =>
      let (pif0, lg) := acc in
      let pif1 :=
        if dict_mem String.eqb pif0 (_dbus_interface obj) then pif0
        else dict_set String.eqb pif0 (_dbus_interface obj) [] in
      let props :=
        match dict_get String.eqb pif1 (_dbus_interface obj) with
        | Some m => m
        | None => []
        end in
      (dict_set String.eqb pif1 (_dbus_interface obj)
         (dict_set okey_eqb props (_dbus_property obj) name),
       lg ++ [LogDebug "Found DBus property %r"
                [LProp (_dbus_interface obj) (_dbus_property obj)]])
  | _ => acc
  end.

(** [Object._build_property_iface_map(cls)]: the map and what it logs. *)
Definition _build_property_iface_map (ct : classtable) (cls : cname)
    : pif * list logrec :=
  fold_left (build_step ct cls) (dir ct cls)
    ([], [LogDebug "Looking for dbus_property instances in %r" [LCls cls]]).

(** [cls._property_iface_map]: ordinary class attribute lookup; [None] is
    the value [Object] gives it. *)
Fixpoint class_pim (st : state) (l : list cname) : option dictobj :=
  match l with
  | [] => None
  | c :: l' =>
      match dict_get String.eqb (st_pim st) c with
      | Some d => Some d
      | None => class_pim st l'
      end
  end.

(** [Object._get_property_iface_map(cls)] *)
Definition _get_property_iface_map (ct : classtable) (cls : cname)
    : M dictobj :=
  fun st =>
    match class_pim st (mro ct cls) with
    | None =>
        let (property_iface_map, lg) := _build_property_iface_map ct cls in
        let d := mkDictObj (st_next st) property_iface_map in
        let w := st_world st in
        let w' :=
          mkWorld (w_attrs w) (w_signals w)
            (w_log w ++ lg
             ++ [LogDebug "built property_iface_map: %r"
                   [LMap property_iface_map]]) in
        (Ok d,
         mkState w' (dict_set String.eqb (st_pim st) cls d)
                 (S (st_next st)) (st_trace st))
    | Some d => (Ok d, st)
    end.

(** [Object.Get(self, interface_name, property_name)] *)
Definition Get (ct : classtable) (self : instance) (interface_name : string)
    (property_name : option string) : M pyobj :=
  logger (LogDebug "Get(%r, %r)" [LStr interface_name; LKey property_name]) ;;
  property_iface_map <- _get_property_iface_map ct (i_class self) ;;
  match dict_get String.eqb (d_items property_iface_map) interface_name with
  | None => raise (no_such_interface interface_name)
  | Some props =>
      match dict_get okey_eqb props property_name with
      | None => raise (no_such_property interface_name property_name)
      | Some name =>
          try_except (getattr ct self name)
            (fun exc =>
               match exc with
               | DBusException _ => raise exc
               | PyException _ r =>
                   logger (LogException "runaway exception from Get(%r, %r)"
                             [LStr interface_name; LKey property_name] exc) ;;
                   raise (unable_to_get interface_name property_name r)
               | PyBaseException _ _ => raise exc
               end)
      end
  end.

(** [Object.Set(self, interface_name, property_name, value)] *)
Definition Set_ (ct : classtable) (self : instance) (interface_name : string)
    (property_name : option string) (value : pyval) : M unit :=
  logger (LogDebug "Set(%r, %r, %r)"
            [LStr interface_name; LKey property_name; LVal value]) ;;
  property_iface_map <- _get_property_iface_map ct (i_class self) ;;
  match dict_get String.eqb (d_items property_iface_map) interface_name with
  | None => raise (no_such_interface interface_name)
  | Some props =>
      match dict_get okey_eqb props property_name with
      | None => raise (no_such_property interface_name property_name)
      | Some name =>
          try_except (setattr ct self name value)
            (fun exc =>
               match exc with
               | DBusException _ => raise exc
               | PyException _ r =>
                   logger (LogException
                             "runaway exception from Set(%r, %r, %r)"
                             [LStr interface_name; LKey property_name;
                              LVal value] exc) ;;
                   raise (unable_to_set interface_name property_name r)
               | PyBaseException _ _ => raise exc
               end)
      end
  end.

(** The dictionary comprehension of [GetAll]. *)
Fixpoint comprehension (get : option string -> M pyobj)
    (names : list (option string)) (acc : dict (option string) pyobj)
    : M (dict (option string) pyobj) :=
  match names with
  | [] => ret acc
  | property_name :: names' =>
      v <- get property_name ;;
      comprehension get names' (dict_set okey_eqb acc property_name v)
  end.

(** [Object.GetAll(self, interface_name)] *)
Definition GetAll (ct : classtable) (self : instance)
    (interface_name : string) : M (dict (option string) pyobj) :=
  logger (LogDebug "GetAll(%r)" [LStr interface_name]) ;;
  property_iface_map <- _get_property_iface_map ct (i_class self) ;;
  match dict_get String.eqb (d_items property_iface_map) interface_name with
  | None => raise (no_such_interface interface_name)
  | Some props =>
      comprehension (Get ct self interface_name) (dict_keys props) []
  end.

(** [Object.PropertiesChanged]: the body logs, the [signal] decorator then
    puts the message on the bus.  Accessor code calls it on the world. *)
Definition PropertiesChanged (self : instance) (interface_name : string)
    (changed_properties : list (string * pyval))
    (invalidated_properties : list string) (w : world) : world :=
  let w1 :=
    w_logger (LogDebug "PropertiesChanged(%r, %r, %r)"
                [LStr interface_name; LChanged changed_properties;
                 LNames invalidated_properties]) w in
  mkWorld (w_attrs w1)
          (w_signals w1
           ++ [mkSignal self interface_name changed_properties
                        invalidated_properties])
          (w_log w1).

End Object.

(** ** Object.Introspect *)

(** An entry of the method table the dbus package keeps per class and
    interface.  A method or a signal stands with what the package's
    [_reflect_on_method] or [_reflect_on_signal] makes of it; a [property]
    carries [_dbus_is_property]; anything else has none of the three
    marks. *)
Inductive member :=
| MethodEntry (reflection : result string)
| SignalEntry (reflection : result string)
| PropertyEntry (p : property)
| OtherEntry.

Definition interface_table := dict string (dict (option string) member).

(** What [Introspect] takes from the dbus package: the doctype constant,
    the class table [_dbus_class_table], keyed by module and class name,
    and the module each class is defined in. *)
Record dbus_package := mkPackage {
  DBUS_INTROSPECT_1_0_XML_DOCTYPE_DECL_NODE : string;
  _dbus_class_table : dict string interface_table;
  __module__ : cname -> string
}.

(** The [connection] argument. *)
Record connection := mkConnection {
  list_exported_child_objects : string -> list string
}.

Definition key_error (key : string) : exn :=
  PyException "KeyError" ("KeyError('" ++ key ++ "')").

(** The [if] / [elif] chain on one entry: the text it adds. *)
Definition reflect_member (func : member) : result string :=
  match func with
  | MethodEntry r => r
  | SignalEntry r => r
  | PropertyEntry p => InterfaceType._reflect_on_property p
  | OtherEntry => Ok ""
  end.

(** The inner loop, over [funcs.values()]. *)
Fixpoint reflect_funcs (funcs : list member) (reflection_data : string)
    : result string :=
  match funcs with
  | [] => Ok reflection_data
  | func :: funcs' =>
      match reflect_member func with
      | Ok text => reflect_funcs funcs' (reflection_data ++ text)
      | Raise e => Raise e
      end
  end.

Definition interface_open (name : string) : string :=
  "  <interface name=" ++ dquote ++ name ++ dquote ++ ">" ++ newline.

Definition interface_close : string := "  </interface>" ++ newline.

(** The outer loop, over [interfaces.items()]. *)
Fixpoint reflect_interfaces (interfaces : interface_table)
    (reflection_data : string) : result string :=
  match interfaces with
  | [] => Ok reflection_data
  | (name, funcs) :: interfaces' =>
      match reflect_funcs (dict_values funcs)
              (reflection_data ++ interface_open name) with
      | Ok data =>
          reflect_interfaces interfaces' (data ++ interface_close)
      | Raise e => Raise e
      end
  end.

Definition child_node (name : string) : string :=
  "  <node name=" ++ dquote ++ name ++ dquote ++ "/>" ++ newline.

(** The loop over the exported child objects. *)
Definition reflect_children (names : list string) (reflection_data : string)
    : string :=
  fold_left (fun data name => (data ++ child_node name)%string) names
    reflection_data.

Definition node_open (object_path : string) : string :=
  "<node name=" ++ dquote ++ object_path ++ dquote ++ ">" ++ newline.

Definition node_close : string := "</node>" ++ newline.

(** [Object.Introspect(self, object_path, connection)] *)
Definition Introspect (pkg : dbus_package) (self : instance)
    (object_path : string) (connection : connection) : M string :=
  logger (LogDebug "Introspect(object_path=%r)" [LStr object_path]) ;;
  let reflection_data :=
    (DBUS_INTROSPECT_1_0_XML_DOCTYPE_DECL_NODE pkg
     ++ node_open object_path)%string in
  match dict_get String.eqb (_dbus_class_table pkg)
          (__module__ pkg (i_class self) ++ "." ++ i_class self)%string with
  | None =>
      raise (key_error
               (__module__ pkg (i_class self) ++ "." ++ i_class self)%string)
  | Some interfaces =>
      match reflect_interfaces interfaces reflection_data with
      | Raise e => raise e
      | Ok data =>
          let reflection_data :=
            (reflect_children
               (list_exported_child_objects connection object_path) data
             ++ node_close)%string in
          logger (LogDebug "Introspect() returns: %s" [LStr reflection_data]) ;;
          ret reflection_data
      end
  end.

(** ** Runs *)

(** Creating an instance allocates an identity and touches no class. *)
Definition new_instance (cls : cname) : M instance :=
  fun st =>
    (Ok (mkInstance (st_next st) cls),
     mkState (st_world st) (st_pim st) (S (st_next st)) (st_trace st)).

Inductive op :=
| OpNew (cls : cname)
| OpLookup (cls : cname)
| OpGet (self : instance) (interface_name : string)
        (property_name : option string)
| OpSet (self : instance) (interface_name : string)
        (property_name : option string) (value : pyval)
| OpGetAll (self : instance) (interface_name : string).

Definition step (ct : classtable) (st : state) (o : op) : state :=
  match o with
  | OpNew cls => snd (new_instance cls st)
  | OpLookup cls => snd (Object._get_property_iface_map ct cls st)
  | OpGet self i p => snd (Object.Get ct self i p st)
  | OpSet self i p v => snd (Object.Set_ ct self i p v st)
  | OpGetAll self i => snd (Object.GetAll ct self i st)
  end.

Definition run (ct : classtable) (ops : list op) (st : state) : state :=
  fold_left (step ct) ops st.

(** Every cached map is the one built for the class that holds it. *)
Definition cache_sound (ct : classtable) (st : state) : Prop :=
  forall c d,
    dict_get String.eqb (st_pim st) c = Some d ->
    d_items d = fst (Object._build_property_iface_map ct c)
    /\ d_id d < st_next st.

(** The attribute names a map resolves to. *)
Definition pif_names (m : pif) : list string :=
  List.concat (map (fun e => dict_values (snd e)) m).

(** ** Example classes *)

Module Examples.

Definition WIDGET : string := "com.example.Widget".
Definition AUTH : string := "com.example.Auth".
Definition FAULTY : string := "com.example.Faulty".

Definition read_attr (fname attr : string) (default : pyval) : pyfunc :=
  mkFunc fname None
    (fun self _ w =>
       (Ok (match dict_get sn_eqb (w_attrs w) (i_id self, attr) with
            | Some v => v
            | None => default
            end), w)).

Definition store (self : instance) (attr : string) (v : pyval) (w : world)
    : world :=
  mkWorld (dict_set sn_eqb (w_attrs w) (i_id self, attr) v)
          (w_signals w) (w_log w).

Definition arity_error : exn :=
  PyException "TypeError" "TypeError('missing required argument')".

Definition write_attr (fname attr : string) : pyfunc :=
  mkFunc fname None
    (fun self args w =>
       match args with
       | [v] => (Ok VNone, store self attr v w)
       | _ => (Raise arity_error, w)
       end).

(** A setter that announces the change itself. *)
Definition write_attr_notify (fname attr iface pname : string) : pyfunc :=
  mkFunc fname None
    (fun self args w =>
       match args with
       | [v] =>
           (Ok VNone,
            Object.PropertiesChanged self iface [(pname, v)] []
              (store self attr v w))
       | _ => (Raise arity_error, w)
       end).

Definition raising (fname : string) (e : exn) : pyfunc :=
  mkFunc fname None (fun _ _ w => (Raise e, w)).

Definition color : property :=
  Property.setter
    (Property.__call__ (Property.__init__ "s" WIDGET None false)
       (read_attr "color" "_color" (VStr "red")))
    (write_attr "color" "_color").

Definition size : property :=
  Property.setter
    (Property.__call__ (Property.__init__ "i" WIDGET None false)
       (read_attr "size" "_size" (VInt 1)))
    (write_attr_notify "size" "_size" WIDGET "size").

Definition serial : property :=
  Property.__call__ (Property.__init__ "s" WIDGET None false)
    (read_attr "serial" "_serial" (VStr "SN-1")).

Definition password : property :=
  Property.__call__ (Property.__init__ "s" AUTH None true)
    (write_attr "password" "_password").

Definition secret_failure : exn :=
  PyException "ValueError" "ValueError('token 1234 rejected')".

Definition secret : property :=
  Property.setter
    (Property.__call__ (Property.__init__ "s" FAULTY None false)
       (raising "secret" secret_failure))
    (raising "secret" secret_failure).

Definition busy_failure : exn :=
  DBusException ["com.example.Busy"; "try again later"].

Definition busy : property :=
  Property.setter
    (Property.__call__ (Property.__init__ "s" FAULTY None false)
       (raising "busy" busy_failure))
    (raising "busy" busy_failure).

Definition weight : property :=
  Property.__call__ (Property.__init__ "d" WIDGET None false)
    (read_attr "weight" "_weight" (VInt 7)).

Definition label : property :=
  Property.__call__ (Property.__init__ "s" WIDGET None false)
    (read_attr "label" "_label" (VStr "gizmo")).

(** A descriptor placed in a class body without decorating anything. *)
Definition orphan : property :=
  Property.__init__ "s" WIDGET (Some "orphan") false.

(** The methods of [Object], which are no [property] instances, stand as
    plain values. *)
Definition object_dict : dict string pyobj :=
  [("Introspect", OVal VNone); ("Get", OVal VNone); ("Set", OVal VNone);
   ("GetAll", OVal VNone); ("PropertiesChanged", OVal VNone)].

Definition classes : classtable :=
  [("Object", mkClass [] object_dict);
   ("Widget",
    mkClass ["Object"]
      [("version", OVal (VInt 3)); ("color", OProp color);
       ("size", OProp size); ("serial", OProp serial);
       ("password", OProp password); ("secret", OProp secret);
       ("busy", OProp busy)]);
   ("Gadget", mkClass ["Widget"; "Object"] [("weight", OProp weight)]);
   ("Gizmo",
    mkClass ["Gadget"; "Widget"; "Object"] [("label", OProp label)]);
   ("Bare", mkClass ["Object"] [("orphan", OProp orphan)])].

(** One instance of [Widget] and one of [Gadget], before any lookup. *)
Definition widget : instance := mkInstance 0 "Widget".
Definition gadget : instance := mkInstance 1 "Gadget".
Definition booted : state :=
  run classes [OpNew "Widget"; OpNew "Gadget"] init_state.

(** [Widget]'s map is fetched first. *)
Definition widget_first : state := run classes [OpLookup "Widget"] booted.


Definition widget_map : pif :=
  [(FAULTY, [(Some "busy", "busy"); (Some "secret", "secret")]);
   (WIDGET, [(Some "color", "color"); (Some "serial", "serial");
             (Some "size", "size")]);
   (AUTH, [(Some "password", "password")])].

Definition gadget_map : pif := [(WIDGET, [(Some "weight", "weight")])].

End Examples.

(** ** Vocabulary of the statements *)

(** The class body of [cls] binds [name] to a [property]. *)
Definition is_declared (ct : classtable) (cls : cname) (name : string)
    : bool :=
  match dict_get String.eqb (class_dict ct cls) name with
  | Some (OProp _) => true
  | _ => false
  end.

(** The map has an entry under [(iface, pname)]. *)
Definition registered (m : pif) (iface : string) (pname : option string)
    : bool :=
  match dict_get String.eqb m iface with
  | Some props => dict_mem okey_eqb props pname
  | None => false
  end.

(** The attribute names that were read or written on instances. *)
Fixpoint attr_names (evs : list event) : list string :=
  match evs with
  | [] => []
  | EvGetattr _ name :: evs' => name :: attr_names evs'
  | EvSetattr _ name _ :: evs' => name :: attr_names evs'
  | EvCall _ _ _ :: evs' => attr_names evs'
  end.

(** The map a handler works with: the cached one that class attribute
    lookup finds, or else the one built at this call. *)
Definition index_of (ct : classtable) (cls : cname) (st : state) : pif :=
  match Object.class_pim st (mro ct cls) with
  | Some d => d_items d
  | None => fst (Object._build_property_iface_map ct cls)
  end.

(** The state a handler is in once it has logged the call and fetched the
    map. *)
Definition entered (ct : classtable) (cls : cname) (r : logrec) (st : state)
    : state :=
  snd (Object._get_property_iface_map ct cls (snd (logger r st))).

Definition get_call (interface_name : string) (property_name : option string)
    : logrec :=
  LogDebug "Get(%r, %r)" [LStr interface_name; LKey property_name].

Definition set_call (interface_name : string) (property_name : option string)
    (value : pyval) : logrec :=
  LogDebug "Set(%r, %r, %r)"
    [LStr interface_name; LKey property_name; LVal value].

Definition getall_call (interface_name : string) : logrec :=
  LogDebug "GetAll(%r)" [LStr interface_name].

(** The two [except] clauses of [Get] and of [Set]. *)
Definition get_handler (interface_name : string)
    (property_name : option string) (exc : exn) : M pyobj :=
  match exc with
  | DBusException _ => raise exc
  | PyException _ r =>
      logger (LogException "runaway exception from Get(%r, %r)"
                [LStr interface_name; LKey property_name] exc) ;;
      raise (Object.unable_to_get interface_name property_name r)
  | PyBaseException _ _ => raise exc
  end.

Definition set_handler (interface_name : string)
    (property_name : option string) (value : pyval) (exc : exn) : M unit :=
  match exc with
  | DBusException _ => raise exc
  | PyException _ r =>
      logger (LogException "runaway exception from Set(%r, %r, %r)"
                [LStr interface_name; LKey property_name; LVal value] exc) ;;
      raise (Object.unable_to_set interface_name property_name r)
  | PyBaseException _ _ => raise exc
  end.

(** No attribute was touched and no accessor called between two states,
    and nothing accessor code could change has changed. *)
Definition untouched (st st' : state) : Prop :=
  st_trace st' = st_trace st
  /\ w_attrs (st_world st') = w_attrs (st_world st)
  /\ w_signals (st_world st') = w_signals (st_world st).

(** The class attributes are the same in two states. *)
Definition same_classes (st st' : state) : Prop :=
  st_pim st' = st_pim st /\ st_next st' = st_next st.

(** The attribute name a map gives for an interface and property name:
    [m[iface][pname]] where both keys exist. *)
Definition resolve (m : pif) (iface : string) (pname : option string)
    : option string :=
  match dict_get String.eqb m iface with
  | Some props => dict_get okey_eqb props pname
  | None => None
  end.

(** The class body of [cls] binds [name] to a [property] made for
    [(iface, pname)]. *)
Definition declares (ct : classtable) (cls : cname) (iface : string)
    (pname : option string) (name : string) : bool :=
  match dict_get String.eqb (class_dict ct cls) name with
  | Some (OProp obj) =>
      String.eqb (_dbus_interface obj) iface
      && okey_eqb (_dbus_property obj) pname
  | _ => false
  end.

(** [s] is a contiguous part of [t]. *)
Definition occurs (s t : string) : Prop :=
  exists a b, t = (a ++ s ++ b)%string.

(** What fetching the map for [cls] does to the class attributes between
    [st] and [st']: nothing when attribute lookup finds a map, and
    otherwise one assignment, of the freshly built map, to [cls] itself. *)
Definition lookup_effect (ct : classtable) (cls : cname) (st st' : state)
    : Prop :=
  match Object.class_pim st (mro ct cls) with
  | Some _ => same_classes st st'
  | None =>
      st_pim st'
      = dict_set String.eqb (st_pim st) cls
          (mkDictObj (st_next st)
             (fst (Object._build_property_iface_map ct cls)))
      /\ st_next st' = S (st_next st)
  end.

(** A [property] entry with neither accessor. *)
Definition ill_defined_member (func : member) : bool :=
  match func with
  | PropertyEntry p =>
      match _getf p, _setf p with
      | None, None => true
      | _, _ => false
      end
  | _ => false
  end.

Definition table_ill_defined (interfaces : interface_table) : bool :=
  existsb (fun e => existsb ill_defined_member (dict_values (snd e)))
          interfaces.

(** The dbus package reflects this method or signal without raising. *)
Definition entry_reflects (func : member) : Prop :=
  match func with
  | MethodEntry r => exists text, r = Ok text
  | SignalEntry r => exists text, r = Ok text
  | _ => True
  end.

Definition table_reflects (interfaces : interface_table) : Prop :=
  forall name funcs func,
    In (name, funcs) interfaces -> In func (dict_values funcs) ->
    entry_reflects func.

(** The text of one entry and the block of one interface in the
    document. *)
Definition member_text (func : member) : string :=
  match reflect_member func with
  | Ok text => text
  | Raise _ => ""
  end.

Definition interface_block (e : string * dict (option string) member)
    : string :=
  (interface_open (fst e)
   ++ String.concat "" (map member_text (dict_values (snd e)))
   ++ interface_close)%string.

(** The key of a class in [_dbus_class_table]. *)
Definition class_key (pkg : dbus_package) (cls : cname) : string :=
  (__module__ pkg cls ++ "." ++ cls)%string.

Module IntrospectExamples.
Import Examples.

Definition widget_table : interface_table :=
  [(PROPERTIES_IFACE,
    [(Some "Get", MethodEntry (Ok "    <method name='Get'/>"));
     (Some "PropertiesChanged",
      SignalEntry (Ok "    <signal name='PropertiesChanged'/>"))]);
   (WIDGET,
    [(Some "color", PropertyEntry color);
     (Some "serial", PropertyEntry serial)])].

Definition bare_table : interface_table :=
  [(WIDGET, [(Some "orphan", PropertyEntry orphan)])].

Definition package : dbus_package :=
  mkPackage "<!DOCTYPE node>"
    [("example.Widget", widget_table); ("example.Bare", bare_table)]
    (fun _ => "example").

Definition bus : connection :=
  mkConnection (fun path => ["child1"; "child2"]).

Definition bare : instance := mkInstance 2 "Bare".
Definition gizmo : instance := mkInstance 3 "Gizmo".

End IntrospectExamples.

(** The reads of [names], one after the other from [st], all of which
    return: the values in order and the state at the end. *)
Inductive reads (get : option string -> M pyobj)
    : list (option string) -> state -> list (option string * pyobj)
      -> state -> Prop :=
| reads_nil : forall st, reads get [] st [] st
| reads_cons : forall k names st v st1 vs st',
    get k st = (Ok v, st1) ->
    reads get names st1 vs st' ->
    reads get (k :: names) st ((k, v) :: vs) st'.

(** The dictionary that holds the pairs of [vs], entered in order. *)
Definition collected (vs : list (option string * pyobj))
    (acc : dict (option string) pyobj) : dict (option string) pyobj :=
  fold_left (fun a kv => dict_set okey_eqb a (fst kv) (snd kv)) vs acc.

(** * Properties *)

(** ** Dictionaries *)

Section DictFacts.
Variables K V : Type.
Variable eqb : K -> K -> bool.
Hypothesis eqb_eq : forall a b, eqb a b = true <-> a = b.

Lemma eqb_refl' : forall a, eqb a a = true.
Proof. intro a. apply eqb_eq. reflexivity. Qed.

Lemma eqb_neq' : forall a b, a <> b -> eqb a b = false.
Proof.
  intros a b Hab. destruct (eqb a b) eqn:E; [|reflexivity].
  apply eqb_eq in E. contradiction.
Qed.

Lemma dict_get_set_same : forall (d : dict K V) k v,
  dict_get eqb (dict_set eqb d k v) k = Some v.
Proof.
  induction d as [|[k' v'] d IH]; intros k v; simpl.
  - rewrite eqb_refl'. reflexivity.
  - destruct (eqb k k') eqn:E; simpl; rewrite E; [reflexivity | apply IH].
Qed.

Lemma dict_get_set_other : forall (d : dict K V) k v k',
  k' <> k -> dict_get eqb (dict_set eqb d k v) k' = dict_get eqb d k'.
Proof.
  induction d as [|[k1 v1] d IH]; intros k v k' Hne; simpl.
  - rewrite (eqb_neq' Hne). reflexivity.
  - destruct (eqb k k1) eqn:E; simpl.
    + apply eqb_eq in E. subst k1. rewrite (eqb_neq' Hne). reflexivity.
    + destruct (eqb k' k1); [reflexivity | apply IH; assumption].
Qed.

Lemma dict_mem_set : forall (d : dict K V) k v k',
  dict_mem eqb (dict_set eqb d k v) k' = eqb k' k || dict_mem eqb d k'.
Proof.
  intros d k v k'. unfold dict_mem.
  destruct (eqb k' k) eqn:E.
  - apply eqb_eq in E. subst k'. rewrite dict_get_set_same. reflexivity.
  - rewrite dict_get_set_other; [reflexivity|].
    intro H. subst k'. rewrite eqb_refl' in E. discriminate.
Qed.

Lemma dict_get_In : forall (d : dict K V) k v,
  dict_get eqb d k = Some v -> In (k, v) d.
Proof.
  induction d as [|[k' v'] d IH]; intros k v H; simpl in *; [discriminate|].
  destruct (eqb k k') eqn:E.
  - apply eqb_eq in E. inversion H. subst. left. reflexivity.
  - right. apply IH. assumption.
Qed.

Lemma dict_mem_keys : forall (d : dict K V) k,
  dict_mem eqb d k = true <-> In k (dict_keys d).
Proof.
  unfold dict_mem, dict_keys.
  induction d as [|[k' v'] d IH]; intro k; simpl.
  - split; [discriminate | contradiction].
  - destruct (eqb k k') eqn:E.
    + apply eqb_eq in E. subst k'. split; auto.
    + rewrite IH. split; [auto|].
      intros [H|H]; [|assumption].
      subst k'. rewrite eqb_refl' in E. discriminate.
Qed.

Lemma dict_values_set : forall (d : dict K V) k v x,
  In x (dict_values (dict_set eqb d k v)) -> x = v \/ In x (dict_values d).
Proof.
  unfold dict_values.
  induction d as [|[k' v'] d IH]; intros k v x H; simpl in *.
  - destruct H as [H|[]]. left. symmetry. assumption.
  - destruct (eqb k k'); simpl in H.
    + destruct H as [H|H]; [left; symmetry; assumption | right; right; assumption].
    + destruct H as [H|H]; [right; left; assumption|].
      destruct (IH _ _ _ H) as [H'|H']; [left | right; right]; assumption.
Qed.

End DictFacts.

Lemma okey_eqb_eq : forall a b, okey_eqb a b = true <-> a = b.
Proof.
  intros [a|] [b|]; simpl; try (split; [discriminate | intro H; inversion H]);
    try (split; reflexivity).
  rewrite String.eqb_eq. split; intro H; [subst | inversion H]; reflexivity.
Qed.

(** ** The descriptor *)

Lemma call_eq : forall f self args st,
  call f self args st =
  (fst (fn_call f self args (st_world st)),
   mkState (snd (fn_call f self args (st_world st))) (st_pim st) (st_next st)
           (st_trace st ++ [EvCall f self args])).
Proof.
  intros f self args st. unfold call, bind, ghost, in_world. simpl.
  destruct (fn_call f self args (st_world st)) as [[v|e] w]; reflexivity.
Qed.

(** C6. A descriptor with a getter and no setter is read by calling the
    getter on the instance, whose outcome is the outcome of the read, and
    writing it raises "property is not writable" without calling anything;
    a descriptor with a setter and no getter is written by calling the
    setter with the value, and reading it raises "property is not readable". *)
Theorem C6_one_sided_descriptors :
  forall (p_r p_w : property) (getf setf : pyfunc) (i : instance)
         (value : pyval) (st : state),
    _getf p_r = Some getf -> _setf p_r = None ->
    _getf p_w = None -> _setf p_w = Some setf ->
    (* read of the read-only descriptor delegates to the getter *)
    Property.__get__ p_r (Some i) st =
      (match fst (fn_call getf i [] (st_world st)) with
       | Ok v => Ok (OVal v)
       | Raise e => Raise e
       end,
       mkState (snd (fn_call getf i [] (st_world st))) (st_pim st)
               (st_next st) (st_trace st ++ [EvCall getf i []]))
    /\ Property.__set__ p_r i value st = (Raise Property.not_writable, st)
    (* write of the write-only descriptor delegates to the setter *)
    /\ Property.__set__ p_w i value st =
      (match fst (fn_call setf i [value] (st_world st)) with
       | Ok _ => Ok tt
       | Raise e => Raise e
       end,
       mkState (snd (fn_call setf i [value] (st_world st))) (st_pim st)
               (st_next st) (st_trace st ++ [EvCall setf i [value]]))
    /\ Property.__get__ p_w (Some i) st = (Raise Property.not_readable, st).
Proof.
  intros p_r p_w getf setf i value st Hg Hs Hg' Hs'.
  unfold Property.__get__, Property.__set__.
  rewrite Hg, Hs, Hg', Hs'. unfold bind. rewrite !call_eq.
  repeat split.
  - destruct (fst (fn_call getf i [] (st_world st))); reflexivity.
  - destruct (fst (fn_call setf i [value] (st_world st))); reflexivity.
Qed.

(** ** Building the map *)

Lemma insert_name_In : forall x y l,
  In x (insert_name y l) <-> x = y \/ In x l.
Proof.
  intros x y l. induction l as [|z l IH]; simpl.
  - intuition.
  - destruct (String.compare y z) eqn:E; simpl.
    + apply String.compare_eq_iff in E. subst z. intuition.
    + intuition.
    + rewrite IH. intuition.
Qed.

Lemma fold_insert_name_In : forall x l,
  In x (fold_right insert_name [] l) <-> In x l.
Proof.
  intros x l. induction l as [|y l IH]; simpl; [reflexivity|].
  rewrite insert_name_In, IH. intuition.
Qed.

Lemma dir_own : forall ct cls name o,
  dict_get String.eqb (class_dict ct cls) name = Some o ->
  In name (dir ct cls).
Proof.
  intros ct cls name o H. unfold dir. apply fold_insert_name_In.
  apply in_concat. exists (dict_keys (class_dict ct cls)). split.
  - unfold mro. simpl. left. reflexivity.
  - apply (dict_get_In String.eqb String.eqb_eq) in H.
    unfold dict_keys. change name with (fst (name, o)).
    apply in_map. assumption.
Qed.

Lemma pif_names_set : forall (m : pif) k inner x,
  In x (pif_names (dict_set String.eqb m k inner)) ->
  In x (dict_values inner) \/ In x (pif_names m).
Proof.
  unfold pif_names.
  induction m as [|[k' v'] m IH]; intros k inner x H; simpl in *.
  - rewrite app_nil_r in H. left. assumption.
  - destruct (String.eqb k k'); simpl in H; apply in_app_or in H.
    + destruct H as [H|H]; [left; assumption|].
      right. apply in_or_app. right. assumption.
    + destruct H as [H|H]; [right; apply in_or_app; left; assumption|].
      destruct (IH _ _ _ H) as [H'|H']; [left; assumption|].
      right. apply in_or_app. right. assumption.
Qed.

Lemma pif_names_get : forall (m : pif) k props x,
  dict_get String.eqb m k = Some props ->
  In x (dict_values props) -> In x (pif_names m).
Proof.
  intros m k props x Hget Hx. unfold pif_names. apply in_concat.
  exists (dict_values props). split; [|assumption].
  apply (dict_get_In String.eqb String.eqb_eq) in Hget.
  change (dict_values props)
    with ((fun e : string * dict (option string) string =>
             dict_values (snd e)) (k, props)).
  apply in_map. assumption.
Qed.

Lemma build_step_names : forall ct cls acc name x,
  In x (pif_names (fst (Object.build_step ct cls acc name))) ->
  (x = name /\ is_declared ct cls name = true)
  \/ In x (pif_names (fst acc)).
Proof.
  intros ct cls [pif0 lg] name x. unfold Object.build_step, is_declared.
  destruct (dict_get String.eqb (class_dict ct cls) name) as [[obj|v]|];
    simpl; auto.
  intro H. apply pif_names_set in H. destruct H as [H|H].
  - apply dict_values_set in H. destruct H as [H|H]; [left; auto|].
    right.
    destruct (dict_mem String.eqb pif0 (_dbus_interface obj)) eqn:Em.
    + destruct (dict_get String.eqb pif0 (_dbus_interface obj)) eqn:Eg;
        [|contradiction].
      eapply pif_names_get; eassumption.
    + rewrite (dict_get_set_same String.eqb String.eqb_eq) in H.
      contradiction.
  - right.
    destruct (dict_mem String.eqb pif0 (_dbus_interface obj)); [assumption|].
    apply pif_names_set in H. destruct H as [[]|H]. assumption.
Qed.

Lemma build_fold_names : forall ct cls names acc x,
  In x (pif_names (fst (fold_left (Object.build_step ct cls) names acc))) ->
  is_declared ct cls x = true \/ In x (pif_names (fst acc)).
Proof.
  intros ct cls names. induction names as [|n names IH]; intros acc x H;
    simpl in *; [right; assumption|].
  destruct (IH _ _ H) as [H'|H']; [left; assumption|].
  apply build_step_names in H'. destruct H' as [[-> Hd]|H']; auto.
Qed.

(** Every name the built map resolves to is bound to a [property] in the
    class's own body. *)
Lemma build_names_declared : forall ct cls x,
  In x (pif_names (fst (Object._build_property_iface_map ct cls))) ->
  is_declared ct cls x = true.
Proof.
  intros ct cls x H. unfold Object._build_property_iface_map in H.
  apply build_fold_names in H. destruct H as [H|[]]. assumption.
Qed.





(** ** Fetching the map *)

Lemma lookup_cached : forall ct cls st d,
  Object.class_pim st (mro ct cls) = Some d ->
  Object._get_property_iface_map ct cls st = (Ok d, st).
Proof.
  intros ct cls st d H. unfold Object._get_property_iface_map.
  rewrite H. reflexivity.
Qed.

Lemma lookup_build : forall ct cls st,
  Object.class_pim st (mro ct cls) = None ->
  Object._get_property_iface_map ct cls st =
  (Ok (mkDictObj (st_next st) (fst (Object._build_property_iface_map ct cls))),
   mkState
     (mkWorld (w_attrs (st_world st)) (w_signals (st_world st))
        (w_log (st_world st)
         ++ snd (Object._build_property_iface_map ct cls)
         ++ [LogDebug "built property_iface_map: %r"
               [LMap (fst (Object._build_property_iface_map ct cls))]]))
     (dict_set String.eqb (st_pim st) cls
        (mkDictObj (st_next st)
           (fst (Object._build_property_iface_map ct cls))))
     (S (st_next st)) (st_trace st)).
Proof.
  intros ct cls st H. unfold Object._get_property_iface_map.
  rewrite H. destruct (Object._build_property_iface_map ct cls).
  reflexivity.
Qed.

Lemma class_pim_ext : forall st st' l,
  st_pim st' = st_pim st -> Object.class_pim st' l = Object.class_pim st l.
Proof.
  intros st st' l H. induction l as [|c l IH]; simpl; [reflexivity|].
  rewrite H, IH. reflexivity.
Qed.

Lemma index_of_ext : forall ct cls st st',
  st_pim st' = st_pim st -> index_of ct cls st' = index_of ct cls st.
Proof.
  intros ct cls st st' H. unfold index_of.
  rewrite (class_pim_ext _ _ _ H). reflexivity.
Qed.

(** The lookup never raises; it hands out the map [index_of] names and
    leaves attributes, signals and the access record alone. *)
Lemma lookup_total : forall ct cls st,
  exists d,
    Object._get_property_iface_map ct cls st
    = (Ok d, snd (Object._get_property_iface_map ct cls st))
    /\ d_items d = index_of ct cls st
    /\ Object.class_pim (snd (Object._get_property_iface_map ct cls st))
         (mro ct cls) = Some d
    /\ untouched st (snd (Object._get_property_iface_map ct cls st)).
Proof.
  intros ct cls st. unfold index_of.
  destruct (Object.class_pim st (mro ct cls)) as [d|] eqn:E.
  - exists d. rewrite (lookup_cached _ _ _ E). simpl.
    repeat split; assumption || reflexivity.
  - rewrite (lookup_build _ _ _ E). simpl. eexists. repeat split.
    rewrite (dict_get_set_same String.eqb String.eqb_eq). reflexivity.
Qed.

(** Asking again right away returns the very same object and changes
    nothing. *)
Lemma lookup_idempotent : forall ct cls st d st1,
  Object._get_property_iface_map ct cls st = (Ok d, st1) ->
  Object._get_property_iface_map ct cls st1 = (Ok d, st1).
Proof.
  intros ct cls st d st1 H.
  destruct (lookup_total ct cls st) as [d' [H1 [_ [H3 _]]]].
  rewrite H in H1. simpl in H1. rewrite H in H3. simpl in H3.
  inversion H1; subst d'. apply lookup_cached. assumption.
Qed.

(** Creating instances does not affect the lookup. *)
Lemma lookup_after_new_instance : forall ct cls cls' st d,
  Object.class_pim st (mro ct cls) = Some d ->
  Object._get_property_iface_map ct cls (snd (new_instance cls' st))
  = (Ok d, snd (new_instance cls' st)).
Proof.
  intros ct cls cls' st d H. apply lookup_cached.
  rewrite (class_pim_ext st (snd (new_instance cls' st))); [assumption|].
  reflexivity.
Qed.

Lemma entered_facts : forall ct cls r st,
  exists d,
    Object._get_property_iface_map ct cls (snd (logger r st))
    = (Ok d, entered ct cls r st)
    /\ d_items d = index_of ct cls st
    /\ Object.class_pim (entered ct cls r st) (mro ct cls) = Some d
    /\ untouched st (entered ct cls r st).
Proof.
  intros ct cls r st. unfold entered.
  destruct (lookup_total ct cls (snd (logger r st))) as [d [H1 [H2 [H3 H4]]]].
  exists d. repeat split; try assumption.
  - rewrite H2. apply index_of_ext. reflexivity.
  - destruct H4 as [H4 _]. rewrite H4. reflexivity.
  - destruct H4 as [_ [H4 _]]. rewrite H4. reflexivity.
  - destruct H4 as [_ [_ H4]]. rewrite H4. reflexivity.
Qed.

(** ** The handlers, unfolded *)

Lemma Get_unfold : forall ct self iface pn st,
  Object.Get ct self iface pn st =
  match dict_get String.eqb (index_of ct (i_class self) st) iface with
  | None =>
      (Raise (Object.no_such_interface iface),
       entered ct (i_class self) (get_call iface pn) st)
  | Some props =>
      match dict_get okey_eqb props pn with
      | None =>
          (Raise (Object.no_such_property iface pn),
           entered ct (i_class self) (get_call iface pn) st)
      | Some name =>
          try_except (getattr ct self name) (get_handler iface pn)
            (entered ct (i_class self) (get_call iface pn) st)
      end
  end.
Proof.
  intros ct self iface pn st.
  destruct (entered_facts ct (i_class self) (get_call iface pn) st)
    as [d [H1 [H2 _]]].
  unfold Object.Get. unfold bind at 1. unfold bind at 1.
  change (logger (LogDebug "Get(%r, %r)" [LStr iface; LKey pn]) st)
    with (Ok tt, snd (logger (get_call iface pn) st)).
  cbv beta iota. rewrite H1. cbv beta iota. rewrite H2.
  destruct (dict_get String.eqb (index_of ct (i_class self) st) iface)
    as [props|]; [|reflexivity].
  destruct (dict_get okey_eqb props pn); reflexivity.
Qed.

Lemma Set_unfold : forall ct self iface pn value st,
  Object.Set_ ct self iface pn value st =
  match dict_get String.eqb (index_of ct (i_class self) st) iface with
  | None =>
      (Raise (Object.no_such_interface iface),
       entered ct (i_class self) (set_call iface pn value) st)
  | Some props =>
      match dict_get okey_eqb props pn with
      | None =>
          (Raise (Object.no_such_property iface pn),
           entered ct (i_class self) (set_call iface pn value) st)
      | Some name =>
          try_except (setattr ct self name value)
            (set_handler iface pn value)
            (entered ct (i_class self) (set_call iface pn value) st)
      end
  end.
Proof.
  intros ct self iface pn value st.
  destruct (entered_facts ct (i_class self) (set_call iface pn value) st)
    as [d [H1 [H2 _]]].
  unfold Object.Set_. unfold bind at 1. unfold bind at 1.
  change (logger (LogDebug "Set(%r, %r, %r)"
                    [LStr iface; LKey pn; LVal value]) st)
    with (Ok tt, snd (logger (set_call iface pn value) st)).
  cbv beta iota. rewrite H1. cbv beta iota. rewrite H2.
  destruct (dict_get String.eqb (index_of ct (i_class self) st) iface)
    as [props|]; [|reflexivity].
  destruct (dict_get okey_eqb props pn); reflexivity.
Qed.

Lemma GetAll_unfold : forall ct self iface st,
  Object.GetAll ct self iface st =
  match dict_get String.eqb (index_of ct (i_class self) st) iface with
  | None =>
      (Raise (Object.no_such_interface iface),
       entered ct (i_class self) (getall_call iface) st)
  | Some props =>
      Object.comprehension (Object.Get ct self iface) (dict_keys props) []
        (entered ct (i_class self) (getall_call iface) st)
  end.
Proof.
  intros ct self iface st.
  destruct (entered_facts ct (i_class self) (getall_call iface) st)
    as [d [H1 [H2 _]]].
  unfold Object.GetAll. unfold bind at 1. unfold bind at 1.
  change (logger (LogDebug "GetAll(%r)" [LStr iface]) st)
    with (Ok tt, snd (logger (getall_call iface) st)).
  cbv beta iota. rewrite H1. cbv beta iota. rewrite H2.
  destruct (dict_get String.eqb (index_of ct (i_class self) st) iface);
    reflexivity.
Qed.

(** ** Attribute access *)

Lemma attr_names_app : forall l1 l2,
  attr_names (l1 ++ l2) = attr_names l1 ++ attr_names l2.
Proof.
  induction l1 as [|[s n|s n v|f s a] l1 IH]; intro l2; simpl;
    rewrite ?IH; reflexivity.
Qed.

Lemma getattr_property : forall ct self name p getf st,
  mro_lookup ct (mro ct (i_class self)) name = Some (OProp p) ->
  _getf p = Some getf ->
  getattr ct self name st =
  (match fst (fn_call getf self [] (st_world st)) with
   | Ok v => Ok (OVal v)
   | Raise e => Raise e
   end,
   mkState (snd (fn_call getf self [] (st_world st))) (st_pim st) (st_next st)
           (st_trace st ++ [EvGetattr self name; EvCall getf self []])).
Proof.
  intros ct self name p getf st Hl Hg.
  unfold getattr, bind at 1, ghost. cbv beta iota. rewrite Hl.
  unfold Property.__get__. rewrite Hg. unfold bind. rewrite call_eq.
  cbn [st_world st_pim st_next st_trace fst snd].
  rewrite <- app_assoc. cbn [app].
  destruct (fst (fn_call getf self [] (st_world st))); reflexivity.
Qed.

Lemma setattr_property : forall ct self name value p setf st,
  mro_lookup ct (mro ct (i_class self)) name = Some (OProp p) ->
  _setf p = Some setf ->
  setattr ct self name value st =
  (match fst (fn_call setf self [value] (st_world st)) with
   | Ok _ => Ok tt
   | Raise e => Raise e
   end,
   mkState (snd (fn_call setf self [value] (st_world st))) (st_pim st)
           (st_next st)
           (st_trace st ++ [EvSetattr self name value;
                            EvCall setf self [value]])).
Proof.
  intros ct self name value p setf st Hl Hs.
  unfold setattr, bind at 1, ghost. cbv beta iota. rewrite Hl.
  unfold Property.__set__. rewrite Hs. unfold bind. rewrite call_eq.
  cbn [st_world st_pim st_next st_trace fst snd].
  rewrite <- app_assoc. cbn [app].
  destruct (fst (fn_call setf self [value] (st_world st))); reflexivity.
Qed.

Lemma getattr_frame : forall ct self name st,
  same_classes st (snd (getattr ct self name st))
  /\ attr_names (st_trace (snd (getattr ct self name st)))
     = attr_names (st_trace st) ++ [name].
Proof.
  intros ct self name st. unfold same_classes, getattr, bind, ghost.
  cbv beta iota.
  destruct (mro_lookup ct (mro ct (i_class self)) name) as [[p|v]|].
  - unfold Property.__get__. destruct (_getf p) as [f|].
    + unfold bind. rewrite call_eq. simpl.
      destruct (fst (fn_call f self [] (st_world st))); simpl;
        rewrite !attr_names_app; simpl; rewrite app_nil_r; auto.
    + simpl. rewrite attr_names_app. auto.
  - simpl.
    destruct (dict_get sn_eqb (w_attrs (st_world st)) (i_id self, name));
      simpl; rewrite attr_names_app; auto.
  - simpl.
    destruct (dict_get sn_eqb (w_attrs (st_world st)) (i_id self, name));
      simpl; rewrite attr_names_app; auto.
Qed.

Lemma setattr_frame : forall ct self name value st,
  same_classes st (snd (setattr ct self name value st))
  /\ attr_names (st_trace (snd (setattr ct self name value st)))
     = attr_names (st_trace st) ++ [name].
Proof.
  intros ct self name value st.
  unfold same_classes, setattr, bind, ghost. cbv beta iota.
  destruct (mro_lookup ct (mro ct (i_class self)) name) as [[p|v]|].
  - unfold Property.__set__. destruct (_setf p) as [f|].
    + unfold bind. rewrite call_eq. simpl.
      destruct (fst (fn_call f self [value] (st_world st))); simpl;
        rewrite !attr_names_app; simpl; rewrite app_nil_r; auto.
    + simpl. rewrite attr_names_app. auto.
  - simpl. rewrite attr_names_app. auto.
  - simpl. rewrite attr_names_app. auto.
Qed.

Lemma get_handler_frame : forall iface pn e st,
  same_classes st (snd (get_handler iface pn e st))
  /\ st_trace (snd (get_handler iface pn e st)) = st_trace st.
Proof.
  intros iface pn [a|c r|c r] st; unfold same_classes; simpl; auto.
Qed.

Lemma set_handler_frame : forall iface pn v e st,
  same_classes st (snd (set_handler iface pn v e st))
  /\ st_trace (snd (set_handler iface pn v e st)) = st_trace st.
Proof.
  intros iface pn v [a|c r|c r] st; unfold same_classes; simpl; auto.
Qed.

(** What [Get] does when the getter it reaches raises. *)
Lemma Get_getter_raises : forall ct self iface pn st props name p getf e w2,
  dict_get String.eqb (index_of ct (i_class self) st) iface = Some props ->
  dict_get okey_eqb props pn = Some name ->
  mro_lookup ct (mro ct (i_class self)) name = Some (OProp p) ->
  _getf p = Some getf ->
  fn_call getf self []
    (st_world (entered ct (i_class self) (get_call iface pn) st))
  = (Raise e, w2) ->
  Object.Get ct self iface pn st =
  get_handler iface pn e
    (mkState w2
       (st_pim (entered ct (i_class self) (get_call iface pn) st))
       (st_next (entered ct (i_class self) (get_call iface pn) st))
       (st_trace (entered ct (i_class self) (get_call iface pn) st)
        ++ [EvGetattr self name; EvCall getf self []])).
Proof.
  intros ct self iface pn st props name p getf e w2 Hi Hp Hl Hg Hf.
  rewrite Get_unfold, Hi, Hp. unfold try_except.
  rewrite (getattr_property _ _ _ _ Hl Hg). rewrite Hf. reflexivity.
Qed.

Lemma Set_setter_raises :
  forall ct self iface pn value st props name p setf e w2,
  dict_get String.eqb (index_of ct (i_class self) st) iface = Some props ->
  dict_get okey_eqb props pn = Some name ->
  mro_lookup ct (mro ct (i_class self)) name = Some (OProp p) ->
  _setf p = Some setf ->
  fn_call setf self [value]
    (st_world (entered ct (i_class self) (set_call iface pn value) st))
  = (Raise e, w2) ->
  Object.Set_ ct self iface pn value st =
  set_handler iface pn value e
    (mkState w2
       (st_pim (entered ct (i_class self) (set_call iface pn value) st))
       (st_next (entered ct (i_class self) (set_call iface pn value) st))
       (st_trace (entered ct (i_class self) (set_call iface pn value) st)
        ++ [EvSetattr self name value; EvCall setf self [value]])).
Proof.
  intros ct self iface pn value st props name p setf e w2 Hi Hp Hl Hs Hf.
  rewrite Set_unfold, Hi, Hp. unfold try_except.
  rewrite (setattr_property _ _ _ _ _ Hl Hs). rewrite Hf. reflexivity.
Qed.

(** ** Get and Set *)

(** C2. With an interface name that the object's map does not have, [Get]
    and [Set] raise "No such interface"; with an interface name it has and a
    property name missing under it, they raise "No such property".  Neither
    error is one of the "Unable to get/set property" errors, and on both
    paths no attribute is touched and no accessor is called. *)
Theorem C2_unknown_interface_or_property :
  forall ct self iface pn value st,
    (dict_get String.eqb (index_of ct (i_class self) st) iface = None ->
     fst (Object.Get ct self iface pn st)
       = Raise (Object.no_such_interface iface)
     /\ fst (Object.Set_ ct self iface pn value st)
       = Raise (Object.no_such_interface iface)
     /\ untouched st (snd (Object.Get ct self iface pn st))
     /\ untouched st (snd (Object.Set_ ct self iface pn value st)))
    /\ (forall props,
          dict_get String.eqb (index_of ct (i_class self) st) iface
            = Some props ->
          dict_get okey_eqb props pn = None ->
          fst (Object.Get ct self iface pn st)
            = Raise (Object.no_such_property iface pn)
          /\ fst (Object.Set_ ct self iface pn value st)
            = Raise (Object.no_such_property iface pn)
          /\ untouched st (snd (Object.Get ct self iface pn st))
          /\ untouched st (snd (Object.Set_ ct self iface pn value st)))
    /\ (forall i p r,
          Object.no_such_interface iface <> Object.unable_to_get i p r
          /\ Object.no_such_interface iface <> Object.unable_to_set i p r
          /\ Object.no_such_property iface pn <> Object.unable_to_get i p r
          /\ Object.no_such_property iface pn <> Object.unable_to_set i p r).
Proof.
  intros ct self iface pn value st.
  pose proof (entered_facts ct (i_class self) (get_call iface pn) st)
    as [dg [_ [_ [_ Hg]]]].
  pose proof (entered_facts ct (i_class self) (set_call iface pn value) st)
    as [ds [_ [_ [_ Hs]]]].
  split; [|split].
  - intro H. rewrite Get_unfold, Set_unfold, H. simpl. auto.
  - intros props H H'. rewrite Get_unfold, Set_unfold, H, H'. simpl. auto.
  - intros i p r.
    unfold Object.no_such_interface, Object.no_such_property,
      Object.unable_to_get, Object.unable_to_set.
    repeat split; intro E; inversion E.
Qed.

(** C4 (as amended). When the getter or setter that [Get] or [Set] reaches
    raises an exception derived from [Exception] that is not a DBus
    exception, the handler logs it
    with [logger.exception] and raises a DBus exception instead, under the
    Properties interface name, whose message names the interface and the
    property and ends with the [repr] of the original exception. *)
Theorem C4_other_exceptions_are_wrapped :
  forall ct self iface pn value st props name p c r,
    dict_get String.eqb (index_of ct (i_class self) st) iface = Some props ->
    dict_get okey_eqb props pn = Some name ->
    mro_lookup ct (mro ct (i_class self)) name = Some (OProp p) ->
    (forall getf w2,
       _getf p = Some getf ->
       fn_call getf self []
         (st_world (entered ct (i_class self) (get_call iface pn) st))
       = (Raise (PyException c r), w2) ->
       fst (Object.Get ct self iface pn st)
       = Raise (DBusException
                  [PROPERTIES_IFACE;
                   ("Unable to get property interface/property " ++ iface
                    ++ ":" ++ str_key pn ++ ": " ++ r)%string])
       /\ w_log (st_world (snd (Object.Get ct self iface pn st)))
          = w_log w2
            ++ [LogException "runaway exception from Get(%r, %r)"
                  [LStr iface; LKey pn] (PyException c r)])
    /\ (forall setf w2,
          _setf p = Some setf ->
          fn_call setf self [value]
            (st_world (entered ct (i_class self) (set_call iface pn value) st))
          = (Raise (PyException c r), w2) ->
          fst (Object.Set_ ct self iface pn value st)
          = Raise (DBusException
                     [PROPERTIES_IFACE;
                      ("Unable to set property " ++ iface ++ ":"
                       ++ str_key pn ++ ": " ++ r)%string])
          /\ w_log (st_world (snd (Object.Set_ ct self iface pn value st)))
             = w_log w2
               ++ [LogException "runaway exception from Set(%r, %r, %r)"
                     [LStr iface; LKey pn; LVal value] (PyException c r)]).
Proof.
  intros ct self iface pn value st props name p c r Hi Hp Hl. split.
  - intros getf w2 Hg Hf.
    rewrite (Get_getter_raises _ _ _ _ _ Hi Hp Hl Hg Hf). split; reflexivity.
  - intros setf w2 Hs Hf.
    rewrite (Set_setter_raises _ _ _ _ _ _ Hi Hp Hl Hs Hf).
    split; reflexivity.
Qed.

(** C10. A DBus exception raised by the getter or setter that [Get] or
    [Set] reaches comes out of the handler as it is, and nothing is logged
    for it.  Only exceptions of other classes are wrapped: one derived from
    [Exception] is replaced by an "Unable to get/set property" DBus
    exception, and one outside [Exception], which no clause catches, comes
    out as it is as well. *)
Theorem C10_dbus_exceptions_pass_through :
  forall ct self iface pn value st props name p,
    dict_get String.eqb (index_of ct (i_class self) st) iface = Some props ->
    dict_get okey_eqb props pn = Some name ->
    mro_lookup ct (mro ct (i_class self)) name = Some (OProp p) ->
    (forall getf e w2,
       _getf p = Some getf ->
       fn_call getf self []
         (st_world (entered ct (i_class self) (get_call iface pn) st))
       = (Raise e, w2) ->
       match e with
       | DBusException args =>
           fst (Object.Get ct self iface pn st) = Raise (DBusException args)
           /\ w_log (st_world (snd (Object.Get ct self iface pn st)))
              = w_log w2
       | PyException _ r =>
           fst (Object.Get ct self iface pn st)
           = Raise (Object.unable_to_get iface pn r)
           /\ fst (Object.Get ct self iface pn st) <> Raise e
       | PyBaseException _ _ =>
           fst (Object.Get ct self iface pn st) = Raise e
           /\ w_log (st_world (snd (Object.Get ct self iface pn st)))
              = w_log w2
       end)
    /\ (forall setf e w2,
          _setf p = Some setf ->
          fn_call setf self [value]
            (st_world (entered ct (i_class self) (set_call iface pn value) st))
          = (Raise e, w2) ->
          match e with
          | DBusException args =>
              fst (Object.Set_ ct self iface pn value st)
              = Raise (DBusException args)
              /\ w_log (st_world (snd (Object.Set_ ct self iface pn value st)))
                 = w_log w2
          | PyException _ r =>
              fst (Object.Set_ ct self iface pn value st)
              = Raise (Object.unable_to_set iface pn r)
              /\ fst (Object.Set_ ct self iface pn value st) <> Raise e
          | PyBaseException _ _ =>
              fst (Object.Set_ ct self iface pn value st) = Raise e
              /\ w_log (st_world (snd (Object.Set_ ct self iface pn value st)))
                 = w_log w2
          end).
Proof.
  intros ct self iface pn value st props name p Hi Hp Hl. split.
  - intros getf e w2 Hg Hf.
    rewrite (Get_getter_raises _ _ _ _ _ Hi Hp Hl Hg Hf).
    destruct e as [args|c r|c r]; simpl; split; try reflexivity.
    intro E. inversion E.
  - intros setf e w2 Hs Hf.
    rewrite (Set_setter_raises _ _ _ _ _ _ Hi Hp Hl Hs Hf).
    destruct e as [args|c r|c r]; simpl; split; try reflexivity.
    intro E. inversion E.
Qed.

Lemma set_handler_signals : forall iface pn v e st,
  w_signals (st_world (snd (set_handler iface pn v e st)))
  = w_signals (st_world st).
Proof. intros iface pn v [a|c r|c r] st; reflexivity. Qed.

(** C8. Whatever a call of [Set] adds to the signals on the bus was added
    by the setter it called: either the signals are those from before the
    call, or [Set] called a setter [f], started it on a world holding the
    signals from before the call, and the signals afterwards are those [f]
    left. *)
Theorem C8_set_emits_nothing_itself :
  forall ct self iface pn value st,
    w_signals (st_world (snd (Object.Set_ ct self iface pn value st)))
    = w_signals (st_world st)
    \/ exists f w,
         In (EvCall f self [value])
            (st_trace (snd (Object.Set_ ct self iface pn value st)))
         /\ w_signals w = w_signals (st_world st)
         /\ w_signals (st_world (snd (Object.Set_ ct self iface pn value st)))
            = w_signals (snd (fn_call f self [value] w)).
Proof.
  intros ct self iface pn value st.
  pose proof (entered_facts ct (i_class self) (set_call iface pn value) st)
    as [d [_ [_ [_ [Ht [_ Hsig]]]]]].
  rewrite Set_unfold.
  destruct (dict_get String.eqb (index_of ct (i_class self) st) iface)
    as [props|]; [|left; exact Hsig].
  destruct (dict_get okey_eqb props pn) as [name|]; [|left; exact Hsig].
  set (st1 := entered ct (i_class self) (set_call iface pn value) st) in *.
  destruct (mro_lookup ct (mro ct (i_class self)) name) as [[p|v]|] eqn:El.
  - destruct (_setf p) as [f|] eqn:Es.
    + right. exists f, (st_world st1).
      unfold try_except. rewrite (setattr_property _ _ _ _ _ El Es).
      destruct (fst (fn_call f self [value] (st_world st1))) as [u|e].
      * simpl. repeat split; [|assumption].
        apply in_or_app. right. simpl. auto.
      * rewrite set_handler_signals.
        destruct (set_handler_frame iface pn value e
          (mkState (snd (fn_call f self [value] (st_world st1)))
             (st_pim st1) (st_next st1)
             (st_trace st1 ++ [EvSetattr self name value;
                               EvCall f self [value]]))) as [_ Htr].
        rewrite Htr. simpl. repeat split; [|assumption].
        apply in_or_app. right. simpl. auto.
    + left. unfold try_except, setattr, bind, ghost. cbv beta iota.
      rewrite El. unfold Property.__set__. rewrite Es. simpl. exact Hsig.
  - left. unfold try_except, setattr, bind, ghost. cbv beta iota.
    rewrite El. simpl. exact Hsig.
  - left. unfold try_except, setattr, bind, ghost. cbv beta iota.
    rewrite El. simpl. exact Hsig.
Qed.

(** ** GetAll *)

Lemma existsb_keys : forall (props : dict (option string) string) k,
  existsb (okey_eqb k) (dict_keys props) = dict_mem okey_eqb props k.
Proof.
  unfold dict_mem, dict_keys.
  induction props as [|[k' v] props IH]; intro k; simpl; [reflexivity|].
  destruct (okey_eqb k k'); simpl; [reflexivity | apply IH].
Qed.

Lemma comprehension_ok_keys : forall get names acc st m st',
  Object.comprehension get names acc st = (Ok m, st') ->
  forall k,
    dict_mem okey_eqb m k
    = dict_mem okey_eqb acc k || existsb (okey_eqb k) names.
Proof.
  intros get names. induction names as [|n names IH];
    intros acc st m st' H k; simpl in *.
  - inversion H. subst. rewrite orb_false_r. reflexivity.
  - unfold bind in H. destruct (get n st) as [[v|e] st1]; [|discriminate].
    rewrite (IH _ _ _ _ H k).
    rewrite (dict_mem_set okey_eqb okey_eqb_eq).
    destruct (okey_eqb k n), (dict_mem okey_eqb acc k); reflexivity.
Qed.

Lemma comprehension_raise_at : forall get pre k post acc st acc1 st1 e st2,
  Object.comprehension get pre acc st = (Ok acc1, st1) ->
  get k st1 = (Raise e, st2) ->
  Object.comprehension get (pre ++ k :: post) acc st = (Raise e, st2).
Proof.
  intros get pre. induction pre as [|n pre IH];
    intros k post acc st acc1 st1 e st2 Hpre Hk; simpl in *.
  - inversion Hpre. subst. unfold bind. rewrite Hk. reflexivity.
  - unfold bind in *. destruct (get n st) as [[v|e'] st']; [|discriminate].
    eapply IH; eassumption.
Qed.

Lemma comprehension_raise_inv : forall get names acc st e st',
  Object.comprehension get names acc st = (Raise e, st') ->
  exists k st1, In k names /\ get k st1 = (Raise e, st').
Proof.
  intros get names. induction names as [|n names IH];
    intros acc st e st' H; simpl in *; [discriminate|].
  unfold bind in H. destruct (get n st) as [[v|e'] st1] eqn:E.
  - destruct (IH _ _ _ _ H) as [k [st2 [Hin Hk]]].
    exists k, st2. auto.
  - inversion H. subst. exists n, st. auto.
Qed.

Lemma comprehension_reads : forall get names st vs st',
  reads get names st vs st' ->
  forall acc,
    Object.comprehension get names acc st = (Ok (collected vs acc), st').
Proof.
  intros get names st vs st' H.
  induction H as [st|k names st v st1 vs st' Hk Hr IH]; intro acc; simpl.
  - reflexivity.
  - unfold bind. rewrite Hk. apply IH.
Qed.

Lemma comprehension_reads_then_raise :
  forall get pre k post st vs st1 e st2 acc,
    reads get pre st vs st1 ->
    get k st1 = (Raise e, st2) ->
    Object.comprehension get (pre ++ k :: post) acc st = (Raise e, st2).
Proof.
  intros get pre k post st vs st1 e st2 acc Hr Hk.
  eapply comprehension_raise_at; [|exact Hk].
  apply comprehension_reads. exact Hr.
Qed.

(** Either every read returns, or some read is the first to raise. *)
Lemma reads_or_first_failure : forall get names st,
  (exists vs st', reads get names st vs st')
  \/ (exists pre k post vs st1 e st2,
        names = pre ++ k :: post
        /\ reads get pre st vs st1
        /\ get k st1 = (Raise e, st2)).
Proof.
  intros get names. induction names as [|n names IH]; intro st.
  - left. exists [], st. constructor.
  - destruct (get n st) as [[v|e] st1] eqn:E.
    + destruct (IH st1) as [[vs [st' Hr]]
                           |[pre [k [post [vs [st2 [e [st3 [Hn [Hr Hk]]]]]]]]]].
      * left. exists ((n, v) :: vs), st'. econstructor; eassumption.
      * right. exists (n :: pre), k, post, ((n, v) :: vs), st2, e, st3.
        subst names. repeat split; [econstructor; eassumption | assumption].
    + right. exists [], n, names, [], st, e, st1.
      repeat split; [constructor | assumption].
Qed.

Lemma collected_get : forall vs acc k v,
  dict_get okey_eqb (collected vs acc) k = Some v ->
  dict_get okey_eqb acc k = Some v \/ In (k, v) vs.
Proof.
  unfold collected.
  induction vs as [|[k1 v1] vs IH]; intros acc k v H; simpl in *;
    [left; assumption|].
  destruct (IH _ _ _ H) as [H'|H']; [|right; right; assumption].
  destruct (okey_eqb k k1) eqn:E.
  - apply okey_eqb_eq in E. subst k1.
    rewrite (dict_get_set_same okey_eqb okey_eqb_eq) in H'.
    inversion H'. subst v1. right. left. reflexivity.
  - rewrite (dict_get_set_other okey_eqb okey_eqb_eq) in H'.
    + left. assumption.
    + intro Heq. subst k1. rewrite (eqb_refl' okey_eqb okey_eqb_eq) in E.
      discriminate.
Qed.

(** C3. [GetAll] on an interface name missing from the object's map raises
    "No such interface".  On an interface name the map has, [GetAll] reads
    the registered property names in order with [Get], each read starting
    where the one before ended.  If every read returns, [GetAll] returns a
    dictionary whose keys are exactly the registered names and whose values
    are the values read, in the state the last read left.  If a read
    raises after those before it returned, [GetAll] raises that exception
    in the state that read left and returns no dictionary.  One of the two
    always is the case. *)
Theorem C3_getall_complete_or_fails :
  forall ct self iface st,
    (dict_get String.eqb (index_of ct (i_class self) st) iface = None ->
     fst (Object.GetAll ct self iface st)
     = Raise (Object.no_such_interface iface))
    /\ (forall props,
          dict_get String.eqb (index_of ct (i_class self) st) iface
            = Some props ->
          (forall vs st',
             reads (Object.Get ct self iface) (dict_keys props)
               (entered ct (i_class self) (getall_call iface) st) vs st' ->
             exists m,
               Object.GetAll ct self iface st = (Ok m, st')
               /\ (forall k,
                     dict_mem okey_eqb m k = dict_mem okey_eqb props k)
               /\ (forall k v,
                     dict_get okey_eqb m k = Some v -> In (k, v) vs))
          /\ (forall pre k post vs st1 e st2,
                dict_keys props = pre ++ k :: post ->
                reads (Object.Get ct self iface) pre
                  (entered ct (i_class self) (getall_call iface) st) vs st1 ->
                Object.Get ct self iface k st1 = (Raise e, st2) ->
                Object.GetAll ct self iface st = (Raise e, st2))
          /\ ((exists vs st',
                 reads (Object.Get ct self iface) (dict_keys props)
                   (entered ct (i_class self) (getall_call iface) st) vs st')
              \/ (exists pre k post vs st1 e st2,
                    dict_keys props = pre ++ k :: post
                    /\ reads (Object.Get ct self iface) pre
                         (entered ct (i_class self) (getall_call iface) st)
                         vs st1
                    /\ Object.Get ct self iface k st1 = (Raise e, st2)))).
Proof.
  intros ct self iface st. split.
  - intro H. rewrite GetAll_unfold, H. reflexivity.
  - intros props H. rewrite GetAll_unfold, H. split; [|split].
    + intros vs st' Hr. exists (collected vs []).
      pose proof (comprehension_reads Hr []) as E.
      split; [exact E|]. split.
      * intro k. rewrite (comprehension_ok_keys _ _ _ _ E k). simpl.
        apply existsb_keys.
      * intros k v Hk. destruct (collected_get _ _ _ Hk) as [Hn|Hin];
          [discriminate | assumption].
    + intros pre k post vs st1 e st2 Hkeys Hr Hk. rewrite Hkeys.
      eapply comprehension_reads_then_raise; eassumption.
    + apply reads_or_first_failure.
Qed.

(** ** The cache along a run *)

Lemma cache_sound_init : forall ct, cache_sound ct init_state.
Proof. intros ct c d H. discriminate. Qed.

Lemma cache_sound_frame : forall ct st st',
  same_classes st st' -> cache_sound ct st -> cache_sound ct st'.
Proof.
  intros ct st st' [Hp Hn] H c d Hc. rewrite Hp in Hc. rewrite Hn.
  apply H. assumption.
Qed.

Lemma cache_sound_lookup : forall ct cls st,
  cache_sound ct st ->
  cache_sound ct (snd (Object._get_property_iface_map ct cls st)).
Proof.
  intros ct cls st H.
  destruct (Object.class_pim st (mro ct cls)) as [d|] eqn:E.
  - rewrite (lookup_cached _ _ _ E). assumption.
  - rewrite (lookup_build _ _ _ E). intros c d Hc. simpl in *.
    destruct (String.eqb c cls) eqn:Ec.
    + apply String.eqb_eq in Ec. subst c.
      rewrite (dict_get_set_same String.eqb String.eqb_eq) in Hc.
      inversion Hc. subst d. simpl. split; [reflexivity | lia].
    + apply String.eqb_neq in Ec.
      rewrite (dict_get_set_other String.eqb String.eqb_eq) in Hc;
        [|assumption].
      destruct (H _ _ Hc) as [H1 H2]. split; [assumption | lia].
Qed.

Lemma Get_frame : forall ct self iface pn st,
  same_classes (entered ct (i_class self) (get_call iface pn) st)
               (snd (Object.Get ct self iface pn st)).
Proof.
  intros ct self iface pn st. rewrite Get_unfold.
  destruct (dict_get String.eqb (index_of ct (i_class self) st) iface)
    as [props|]; [|split; reflexivity].
  destruct (dict_get okey_eqb props pn) as [name|]; [|split; reflexivity].
  unfold try_except.
  pose proof (getattr_frame ct self name
                (entered ct (i_class self) (get_call iface pn) st))
    as [[H1 H2] _].
  destruct (getattr ct self name
              (entered ct (i_class self) (get_call iface pn) st))
    as [[v|e] st2]; simpl in *; [split; assumption|].
  destruct (get_handler_frame iface pn e st2) as [[H3 H4] _].
  split; congruence.
Qed.

Lemma Set_frame : forall ct self iface pn value st,
  same_classes (entered ct (i_class self) (set_call iface pn value) st)
               (snd (Object.Set_ ct self iface pn value st)).
Proof.
  intros ct self iface pn value st. rewrite Set_unfold.
  destruct (dict_get String.eqb (index_of ct (i_class self) st) iface)
    as [props|]; [|split; reflexivity].
  destruct (dict_get okey_eqb props pn) as [name|]; [|split; reflexivity].
  unfold try_except.
  pose proof (setattr_frame ct self name value
                (entered ct (i_class self) (set_call iface pn value) st))
    as [[H1 H2] _].
  destruct (setattr ct self name value
              (entered ct (i_class self) (set_call iface pn value) st))
    as [[v|e] st2]; simpl in *; [split; assumption|].
  destruct (set_handler_frame iface pn value e st2) as [[H3 H4] _].
  split; congruence.
Qed.

(** What holds after each round of a comprehension holds at its end. *)
Lemma comprehension_invariant :
  forall (Inv : state -> Prop) (get : option string -> M pyobj),
    (forall k st, Inv st -> Inv (snd (get k st))) ->
    forall names acc st,
      Inv st -> Inv (snd (Object.comprehension get names acc st)).
Proof.
  intros Inv get Hget names. induction names as [|n names IH];
    intros acc st H; simpl; [assumption|].
  unfold bind. pose proof (Hget n st H) as Hn.
  destruct (get n st) as [[v|e] st1]; simpl in *; [|assumption].
  apply IH. assumption.
Qed.

Section RunInvariant.
Variable ct : classtable.
Variable P : state -> Prop.
Hypothesis P_frame : forall st st', same_classes st st' -> P st -> P st'.
Hypothesis P_lookup :
  forall cls st, P st -> P (snd (Object._get_property_iface_map ct cls st)).
Hypothesis P_new : forall cls st, P st -> P (snd (new_instance cls st)).

Lemma inv_entered : forall cls r st, P st -> P (entered ct cls r st).
Proof.
  intros cls r st H. unfold entered. apply P_lookup.
  apply (P_frame (st := st)); [split; reflexivity | assumption].
Qed.

Lemma inv_Get : forall self iface pn st,
  P st -> P (snd (Object.Get ct self iface pn st)).
Proof.
  intros self iface pn st H.
  eapply P_frame; [apply Get_frame|]. apply inv_entered. assumption.
Qed.

Lemma inv_Set : forall self iface pn value st,
  P st -> P (snd (Object.Set_ ct self iface pn value st)).
Proof.
  intros self iface pn value st H.
  eapply P_frame; [apply Set_frame|]. apply inv_entered. assumption.
Qed.

Lemma inv_GetAll : forall self iface st,
  P st -> P (snd (Object.GetAll ct self iface st)).
Proof.
  intros self iface st H. rewrite GetAll_unfold.
  destruct (dict_get String.eqb (index_of ct (i_class self) st) iface);
    [|apply inv_entered; assumption].
  apply comprehension_invariant.
  - intros k st0. apply inv_Get.
  - apply inv_entered. assumption.
Qed.

Lemma inv_step : forall st o, P st -> P (step ct st o).
Proof.
  intros st [c|c|self i p|self i p v|self i] H; unfold step.
  - exact (P_new c H).
  - exact (P_lookup c H).
  - apply inv_Get. assumption.
  - apply inv_Set. assumption.
  - apply inv_GetAll. assumption.
Qed.

Lemma inv_run : forall ops st, P st -> P (run ct ops st).
Proof.
  unfold run. induction ops as [|o ops IH]; intros st H; simpl;
    [assumption|].
  apply IH. apply inv_step. assumption.
Qed.

End RunInvariant.

(** Along every run, a class's cached map is the one that was built for
    that class. *)
Lemma cache_sound_run : forall ct ops st,
  cache_sound ct st -> cache_sound ct (run ct ops st).
Proof.
  intros ct ops st. apply inv_run.
  - intros s s'. apply cache_sound_frame.
  - intros cls s. apply cache_sound_lookup.
  - intros cls s H c d Hc. simpl in *. destruct (H _ _ Hc).
    split; [assumption | lia].
Qed.

Lemma class_pim_head_none : forall st c l,
  Object.class_pim st (c :: l) = None ->
  dict_get String.eqb (st_pim st) c = None.
Proof.
  intros st c l H. simpl in H.
  destruct (dict_get String.eqb (st_pim st) c); [discriminate | reflexivity].
Qed.

(** A map that a class holds in its own [__dict__] stays there, the same
    object, along every run: the handlers, further lookups for any class
    and the creation of instances never replace it. *)
Lemma own_map_kept : forall ct ops st c d,
  dict_get String.eqb (st_pim st) c = Some d ->
  dict_get String.eqb (st_pim (run ct ops st)) c = Some d.
Proof.
  intros ct ops st c d.
  apply (@inv_run ct
           (fun s => dict_get String.eqb (st_pim s) c = Some d)).
  - intros s s' [Hp _] H. rewrite Hp. assumption.
  - intros cls s H.
    destruct (Object.class_pim s (mro ct cls)) as [d'|] eqn:E.
    + rewrite (lookup_cached _ _ _ E). assumption.
    + rewrite (lookup_build _ _ _ E). simpl.
      rewrite (dict_get_set_other String.eqb String.eqb_eq); [assumption|].
      intro Heq. subst cls. apply class_pim_head_none in E. congruence.
  - intros cls s H. assumption.
Qed.

(** Once a lookup for a class has built its map, every later lookup for
    that class returns that very object and leaves the state alone. *)
Lemma built_once_then_reused : forall ct cls st ops,
  Object.class_pim st (mro ct cls) = None ->
  let d := mkDictObj (st_next st)
             (fst (Object._build_property_iface_map ct cls)) in
  let st1 := snd (Object._get_property_iface_map ct cls st) in
  fst (Object._get_property_iface_map ct cls st) = Ok d
  /\ Object._get_property_iface_map ct cls (run ct ops st1)
     = (Ok d, run ct ops st1).
Proof.
  intros ct cls st ops H d st1. subst d st1.
  rewrite (lookup_build _ _ _ H). split; [reflexivity|].
  apply lookup_cached. unfold mro. simpl fst. simpl snd.
  cbn [Object.class_pim]. erewrite own_map_kept; [reflexivity|].
  simpl. apply (dict_get_set_same String.eqb String.eqb_eq).
Qed.

(** ** A subclass and the cached map of a base class *)


Lemma entered_cached : forall ct cls r st d,
  Object.class_pim st (mro ct cls) = Some d ->
  entered ct cls r st = snd (logger r st).
Proof.
  intros ct cls r st d H. unfold entered.
  rewrite (lookup_cached ct cls (snd (logger r st)) (d := d)); [reflexivity|].
  rewrite (class_pim_ext st); [assumption | reflexivity].
Qed.

Lemma index_of_cached : forall ct cls st d,
  Object.class_pim st (mro ct cls) = Some d -> index_of ct cls st = d_items d.
Proof. intros ct cls st d H. unfold index_of. rewrite H. reflexivity. Qed.

Lemma pif_names_lookup : forall (m : pif) iface props pn name,
  dict_get String.eqb m iface = Some props ->
  dict_get okey_eqb props pn = Some name ->
  In name (pif_names m).
Proof.
  intros m iface props pn name Hi Hp. eapply pif_names_get; [eassumption|].
  apply (dict_get_In okey_eqb okey_eqb_eq) in Hp.
  unfold dict_values. change name with (snd (pn, name)).
  apply in_map. assumption.
Qed.

(** With the map found in the cache, [Get] leaves the class attributes as
    they are and reads no attribute but one the map names. *)
Lemma Get_cached : forall ct self iface pn st d,
  Object.class_pim st (mro ct (i_class self)) = Some d ->
  st_pim (snd (Object.Get ct self iface pn st)) = st_pim st
  /\ forall n,
       In n (attr_names (st_trace (snd (Object.Get ct self iface pn st)))) ->
       In n (attr_names (st_trace st)) \/ In n (pif_names (d_items d)).
Proof.
  intros ct self iface pn st d H.
  rewrite Get_unfold, (index_of_cached _ _ _ H), (entered_cached _ _ _ _ H).
  destruct (dict_get String.eqb (d_items d) iface) as [props|] eqn:Ei;
    [|simpl; auto].
  destruct (dict_get okey_eqb props pn) as [name|] eqn:Ep; [|simpl; auto].
  unfold try_except.
  pose proof (getattr_frame ct self name (snd (logger (get_call iface pn) st)))
    as [[H1 _] H2].
  destruct (getattr ct self name (snd (logger (get_call iface pn) st)))
    as [[v|e] st2]; simpl in H1, H2.
  - simpl. split; [assumption|]. intros n Hn. rewrite H2 in Hn.
    apply in_app_or in Hn. destruct Hn as [Hn|[Hn|[]]]; [left; assumption|].
    right. subst n. eapply pif_names_lookup; eassumption.
  - destruct (get_handler_frame iface pn e st2) as [[H3 _] H4].
    split; [congruence|]. intros n Hn. rewrite H4, H2 in Hn.
    apply in_app_or in Hn. destruct Hn as [Hn|[Hn|[]]]; [left; assumption|].
    right. subst n. eapply pif_names_lookup; eassumption.
Qed.




(** ** The example classes *)

Import Examples.

(** The scenario of a read-write property: the initial value, a write, the
    value read back, and the two lookup errors. *)
Example widget_scenario :
  fst (Object.Get classes widget WIDGET (Some "color") booted)
    = Ok (OVal (VStr "red"))
  /\ fst (Object.Get classes widget WIDGET (Some "color")
            (run classes [OpSet widget WIDGET (Some "color") (VStr "blue")]
               booted))
    = Ok (OVal (VStr "blue"))
  /\ fst (Object.GetAll classes widget WIDGET
            (run classes [OpSet widget WIDGET (Some "color") (VStr "blue")]
               booted))
    = Ok [(Some "color", OVal (VStr "blue"));
          (Some "serial", OVal (VStr "SN-1"));
          (Some "size", OVal (VInt 1))]
  /\ fst (Object.Get classes widget WIDGET (Some "shape") booted)
    = Raise (Object.no_such_property WIDGET (Some "shape"))
  /\ fst (Object.Get classes widget "com.example.Other" (Some "color") booted)
    = Raise (Object.no_such_interface "com.example.Other").
Proof. repeat split; vm_compute; reflexivity. Qed.

(** A setter that calls [PropertiesChanged] puts one signal on the bus; one
    that does not puts none. *)
Example setters_and_signals :
  w_signals (st_world (snd (Object.Set_ classes widget WIDGET (Some "size")
                              (VInt 4) booted)))
    = [mkSignal widget WIDGET [("size", VInt 4)] []]
  /\ w_signals (st_world (snd (Object.Set_ classes widget WIDGET
                                 (Some "color") (VStr "blue") booted)))
    = [].
Proof. split; vm_compute; reflexivity. Qed.

(** C1. [Gadget] derives from [Widget], which declares [color].  [dir]
    lists the inherited name and attribute lookup on [Gadget] finds the
    descriptor, yet the map built for [Gadget] holds [Gadget]'s own
    [weight] only; with that map [Get] of [color] on a [Gadget] raises
    "No such property". *)
Theorem C1_inherited_property_left_out :
  existsb (String.eqb "color") (dir classes "Gadget") = true
  /\ mro_lookup classes (mro classes "Gadget") "color" = Some (OProp color)
  /\ dict_get String.eqb (class_dict classes "Gadget") "color" = None
  /\ fst (Object._build_property_iface_map classes "Gadget") = gadget_map
  /\ registered (fst (Object._build_property_iface_map classes "Gadget"))
       WIDGET (Some "color") = false
  /\ fst (Object.Get classes gadget WIDGET (Some "color") booted)
     = Raise (Object.no_such_property WIDGET (Some "color")).
Proof. repeat split; vm_compute; reflexivity. Qed.

(** C5. With [Widget]'s map cached, the first lookup for [Gadget] returns
    [Widget]'s dictionary, builds nothing and caches nothing on [Gadget];
    started before any lookup for [Widget], the same call builds and caches
    [Gadget]'s own map. *)
Theorem C5_subclass_first_lookup_builds_nothing :
  dict_get String.eqb (st_pim widget_first) "Widget"
    = Some (mkDictObj 2 widget_map)
  /\ Object._get_property_iface_map classes "Gadget" widget_first
     = (Ok (mkDictObj 2 widget_map), widget_first)
  /\ dict_get String.eqb (st_pim widget_first) "Gadget" = None
  /\ fst (Object._get_property_iface_map classes "Gadget" booted)
     = Ok (mkDictObj 2 gadget_map)
  /\ dict_get String.eqb
       (st_pim (snd (Object._get_property_iface_map classes "Gadget" booted)))
       "Gadget"
     = Some (mkDictObj 2 gadget_map).
Proof. repeat split; vm_compute; reflexivity. Qed.

(** ** The access flag *)




(** ** Failing accessors *)

(** C4, against a sanitized message.  The getter of [secret] raises
    [ValueError('token 1234 rejected')].  The message of the exception that
    [Get] raises ends with that text, letter for letter; the same holds for
    [Set]. *)
Lemma C4_message_carries_original_repr :
  fn_call (raising "secret" secret_failure) widget []
    (st_world (entered classes "Widget" (get_call FAULTY (Some "secret"))
                 booted))
  = (Raise (PyException "ValueError" "ValueError('token 1234 rejected')"),
     st_world (entered classes "Widget" (get_call FAULTY (Some "secret"))
                 booted))
  /\ fst (Object.Get classes widget FAULTY (Some "secret") booted)
     = Raise (DBusException
                [PROPERTIES_IFACE;
                 ("Unable to get property interface/property "
                  ++ "com.example.Faulty:secret: "
                  ++ "ValueError('token 1234 rejected')")%string])
  /\ fst (Object.Set_ classes widget FAULTY (Some "secret") (VStr "x") booted)
     = Raise (DBusException
                [PROPERTIES_IFACE;
                 ("Unable to set property com.example.Faulty:secret: "
                  ++ "ValueError('token 1234 rejected')")%string]).
Proof. repeat split; vm_compute; reflexivity. Qed.

Lemma C4_other_exceptions_are_wrapped_witness :
  dict_get String.eqb (index_of classes "Widget" booted) FAULTY
    = Some [(Some "busy", "busy"); (Some "secret", "secret")]
  /\ fst (Object.Get classes widget FAULTY (Some "secret") booted)
     = Raise (Object.unable_to_get FAULTY (Some "secret")
                "ValueError('token 1234 rejected')")
  /\ fst (Object.Set_ classes widget FAULTY (Some "secret") (VStr "x") booted)
     = Raise (Object.unable_to_set FAULTY (Some "secret")
                "ValueError('token 1234 rejected')").
Proof.
  pose proof (C4_other_exceptions_are_wrapped classes widget FAULTY
                (Some "secret") (VStr "x") booted
                (props := [(Some "busy", "busy"); (Some "secret", "secret")])
                (name := "secret") (p := secret)
                "ValueError" "ValueError('token 1234 rejected')"
                eq_refl eq_refl eq_refl) as [Hg Hs].
  split; [reflexivity|]. split.
  - exact (proj1 (Hg _ _ eq_refl eq_refl)).
  - exact (proj1 (Hs _ _ eq_refl eq_refl)).
Defined.

Lemma C10_dbus_exceptions_pass_through_witness :
  mro_lookup classes (mro classes "Widget") "busy" = Some (OProp busy)
  /\ fst (Object.Get classes widget FAULTY (Some "busy") booted)
     = Raise (DBusException ["com.example.Busy"; "try again later"])
  /\ fst (Object.Set_ classes widget FAULTY (Some "busy") (VStr "x") booted)
     = Raise (DBusException ["com.example.Busy"; "try again later"]).
Proof.
  pose proof (C10_dbus_exceptions_pass_through classes widget FAULTY
                (Some "busy") (VStr "x") booted
                (props := [(Some "busy", "busy"); (Some "secret", "secret")])
                (name := "busy") (p := busy)
                eq_refl eq_refl eq_refl) as [Hg Hs].
  split; [reflexivity|]. split.
  - exact (proj1 (Hg _ busy_failure _ eq_refl eq_refl)).
  - exact (proj1 (Hs _ busy_failure _ eq_refl eq_refl)).
Defined.

(** ** Instances on the example classes *)

Lemma C6_one_sided_descriptors_witness :
  (_getf serial = Some (read_attr "serial" "_serial" (VStr "SN-1"))
   /\ _setf serial = None /\ _getf password = None
   /\ _setf password = Some (write_attr "password" "_password"))
  /\ fst (Property.__get__ serial (Some widget) booted)
     = Ok (OVal (VStr "SN-1"))
  /\ Property.__set__ serial widget (VStr "x") booted
     = (Raise Property.not_writable, booted)
  /\ fst (Property.__set__ password widget (VStr "x") booted) = Ok tt
  /\ Property.__get__ password (Some widget) booted
     = (Raise Property.not_readable, booted).
Proof.
  split; [repeat split|].
  destruct (C6_one_sided_descriptors serial password widget (VStr "x") booted
              eq_refl eq_refl eq_refl eq_refl) as [H1 [H2 [H3 H4]]].
  split; [rewrite H1; reflexivity|]. split; [exact H2|].
  split; [rewrite H3; reflexivity | exact H4].
Defined.

Lemma C2_unknown_interface_or_property_witness :
  dict_get String.eqb (index_of classes "Widget" booted) "com.example.Other"
    = None
  /\ fst (Object.Get classes widget "com.example.Other" (Some "color") booted)
     = Raise (Object.no_such_interface "com.example.Other")
  /\ fst (Object.Set_ classes widget WIDGET (Some "shape") VNone booted)
     = Raise (Object.no_such_property WIDGET (Some "shape")).
Proof.
  split; [reflexivity|]. split.
  - exact (proj1 (proj1 (C2_unknown_interface_or_property classes widget
                           "com.example.Other" (Some "color") VNone booted)
                        eq_refl)).
  - destruct (C2_unknown_interface_or_property classes widget WIDGET
                (Some "shape") VNone booted) as [_ [H _]].
    exact (proj1 (proj2 (H _ eq_refl eq_refl))).
Defined.

(** On the interface of [Widget] every read returns and [GetAll] returns
    the three values; [password] has no getter, so [GetAll] on its
    interface raises what [Get] raises for it. *)
Lemma C3_getall_complete_or_fails_witness :
  (dict_get String.eqb (index_of classes "Widget" booted) WIDGET
     = Some [(Some "color", "color"); (Some "serial", "serial");
             (Some "size", "size")]
   /\ dict_get String.eqb (index_of classes "Widget" booted) AUTH
      = Some [(Some "password", "password")])
  /\ (exists m st',
        Object.GetAll classes widget WIDGET booted = (Ok m, st')
        /\ dict_get okey_eqb m (Some "color") = Some (OVal (VStr "red"))
        /\ forall k v,
             dict_get okey_eqb m k = Some v ->
             In (k, v) [(Some "color", OVal (VStr "red"));
                        (Some "serial", OVal (VStr "SN-1"));
                        (Some "size", OVal (VInt 1))])
  /\ fst (Object.GetAll classes widget AUTH booted)
     = Raise Property.not_readable
  /\ fst (Object.GetAll classes widget "com.example.Other" booted)
     = Raise (Object.no_such_interface "com.example.Other").
Proof.
  split; [split; reflexivity|]. split; [|split].
  - destruct (C3_getall_complete_or_fails classes widget WIDGET booted)
      as [_ H].
    destruct (H _ eq_refl) as [Hok _].
    destruct (Hok [(Some "color", OVal (VStr "red"));
                   (Some "serial", OVal (VStr "SN-1"));
                   (Some "size", OVal (VInt 1))]
                  (snd (Object.GetAll classes widget WIDGET booted)))
      as [m [Hm [_ Hv]]].
    + eapply reads_cons; [vm_compute; reflexivity|].
      eapply reads_cons; [vm_compute; reflexivity|].
      eapply reads_cons; [vm_compute; reflexivity|].
      apply reads_nil.
    + exists m, (snd (Object.GetAll classes widget WIDGET booted)).
      split; [exact Hm|]. split; [|exact Hv].
      assert (E : Ok m = fst (Object.GetAll classes widget WIDGET booted))
        by (rewrite Hm; reflexivity).
      vm_compute in E. inversion E. reflexivity.
  - destruct (C3_getall_complete_or_fails classes widget AUTH booted)
      as [_ H].
    destruct (H _ eq_refl) as [_ [H' _]].
    rewrite (H' [] (Some "password") [] [] _ Property.not_readable
               (snd (Object.Get classes widget AUTH (Some "password")
                       (entered classes "Widget" (getall_call AUTH) booted)))
               eq_refl (reads_nil _ _) eq_refl).
    reflexivity.
  - exact (proj1 (C3_getall_complete_or_fails classes widget
                    "com.example.Other" booted) eq_refl).
Defined.

(** ** The three-class chain *)



(** * Further properties *)

(** ** Which name the built map gives *)

Lemma compare_lt_trans : forall a b c,
  String.compare a b = Lt -> String.compare b c = Lt ->
  String.compare a c = Lt.
Proof.
  intros a b c H1 H2. apply String_as_OT.cmp_lt.
  apply String_as_OT.cmp_lt in H1. apply String_as_OT.cmp_lt in H2.
  eapply String_as_OT.lt_trans; eassumption.
Qed.

Lemma compare_lt_irrefl : forall a, String.compare a a <> Lt.
Proof.
  intros a H. pose proof (String.compare_antisym a a) as E.
  rewrite H in E. discriminate.
Qed.

Lemma insert_name_sorted : forall x l,
  StronglySorted (fun a b => String.compare a b = Lt) l ->
  StronglySorted (fun a b => String.compare a b = Lt) (insert_name x l).
Proof.
  intros x l H. induction H as [|y l Hs IH Hall]; simpl.
  - constructor; constructor.
  - destruct (String.compare x y) eqn:E.
    + constructor; assumption.
    + constructor; [constructor; assumption|].
      constructor; [assumption|].
      eapply Forall_impl; [|exact Hall].
      intros z Hz. eapply compare_lt_trans; eassumption.
    + constructor; [assumption|].
      apply Forall_forall. intros z Hz. apply insert_name_In in Hz.
      destruct Hz as [->|Hz].
      * rewrite String.compare_antisym, E. reflexivity.
      * rewrite Forall_forall in Hall. apply Hall. assumption.
Qed.

(** [dir] lists its names in strictly increasing order. *)
Lemma dir_sorted : forall ct cls,
  StronglySorted (fun a b => String.compare a b = Lt) (dir ct cls).
Proof.
  intros ct cls. unfold dir.
  induction (List.concat
               (map (fun c => dict_keys (class_dict ct c)) (mro ct cls)))
    as [|x l IH]; simpl.
  - constructor.
  - apply insert_name_sorted. assumption.
Qed.

Lemma build_step_resolve : forall ct cls acc name i k,
  resolve (fst (Object.build_step ct cls acc name)) i k
  = if declares ct cls i k name then Some name else resolve (fst acc) i k.
Proof.
  intros ct cls [pif0 lg] name i k. unfold Object.build_step, declares.
  destruct (dict_get String.eqb (class_dict ct cls) name) as [[obj|v]|];
    try reflexivity.
  simpl fst. unfold resolve.
  destruct (String.eqb (_dbus_interface obj) i) eqn:Ei.
  - apply String.eqb_eq in Ei. subst i.
    rewrite (dict_get_set_same String.eqb String.eqb_eq).
    destruct (okey_eqb (_dbus_property obj) k) eqn:Ek.
    + apply okey_eqb_eq in Ek. subst k. simpl.
      apply (dict_get_set_same okey_eqb okey_eqb_eq).
    + simpl.
      assert (Hne : k <> _dbus_property obj).
      { intro H. subst k.
        rewrite (eqb_refl' okey_eqb okey_eqb_eq) in Ek. discriminate. }
      rewrite (dict_get_set_other okey_eqb okey_eqb_eq); [|assumption].
      unfold dict_mem.
      destruct (dict_get String.eqb pif0 (_dbus_interface obj)) eqn:Eg.
      * rewrite Eg. reflexivity.
      * rewrite (dict_get_set_same String.eqb String.eqb_eq). reflexivity.
  - simpl.
    assert (Hne : i <> _dbus_interface obj).
    { intro H. subst i. rewrite String.eqb_refl in Ei. discriminate. }
    rewrite (dict_get_set_other String.eqb String.eqb_eq); [|assumption].
    destruct (dict_mem String.eqb pif0 (_dbus_interface obj));
      [reflexivity|].
    rewrite (dict_get_set_other String.eqb String.eqb_eq); [|assumption].
    reflexivity.
Qed.

Lemma find_app_or : forall A (f : A -> bool) l1 l2,
  find f (l1 ++ l2)
  = match find f l1 with Some x => Some x | None => find f l2 end.
Proof.
  intros A f l1 l2. induction l1 as [|x l1 IH]; simpl; [reflexivity|].
  destruct (f x); [reflexivity | apply IH].
Qed.

(** The loop leaves, under each key, the last name in its list that was
    declared for that key. *)
Lemma build_fold_resolve : forall ct cls i k names acc,
  resolve (fst (fold_left (Object.build_step ct cls) names acc)) i k
  = match find (declares ct cls i k) (rev names) with
    | Some name => Some name
    | None => resolve (fst acc) i k
    end.
Proof.
  intros ct cls i k names. induction names as [|n names IH]; intro acc;
    simpl; [reflexivity|].
  rewrite IH, find_app_or, build_step_resolve. simpl.
  destruct (find (declares ct cls i k) (rev names)); [reflexivity|].
  destruct (declares ct cls i k n); reflexivity.
Qed.

Lemma build_resolve : forall ct cls i k,
  resolve (fst (Object._build_property_iface_map ct cls)) i k
  = find (declares ct cls i k) (rev (dir ct cls)).
Proof.
  intros ct cls i k. unfold Object._build_property_iface_map.
  rewrite build_fold_resolve.
  destruct (find (declares ct cls i k) (rev (dir ct cls))); reflexivity.
Qed.

Lemma declares_in_dir : forall ct cls i k name,
  declares ct cls i k name = true -> In name (dir ct cls).
Proof.
  intros ct cls i k name H. unfold declares in H.
  destruct (dict_get String.eqb (class_dict ct cls) name) as [o|] eqn:E;
    [|discriminate].
  eapply dir_own. eassumption.
Qed.

Lemma find_rev_last : forall A (f : A -> bool) l x,
  find f (rev l) = Some x ->
  exists l1 l2, l = l1 ++ x :: l2 /\ f x = true
                /\ forall y, In y l2 -> f y = false.
Proof.
  intros A f l. induction l as [|a l IH]; intros x H; simpl in H;
    [discriminate|].
  rewrite find_app_or in H.
  destruct (find f (rev l)) as [y|] eqn:E.
  - inversion H. subst y. destruct (IH x eq_refl) as [l1 [l2 [-> [Hx Hl2]]]].
    exists (a :: l1), l2. auto.
  - simpl in H. destruct (f a) eqn:Ea; [|discriminate].
    inversion H. subst a. exists [], l. repeat split; [assumption|].
    intros y Hy. apply (find_none f (rev l) E). apply in_rev in Hy.
    assumption.
Qed.

Lemma sorted_before : forall l1 x l2 y,
  StronglySorted (fun a b => String.compare a b = Lt) (l1 ++ x :: l2) ->
  In y l1 -> String.compare y x = Lt.
Proof.
  induction l1 as [|a l1 IH]; intros x l2 y Hs Hy; [contradiction|].
  simpl in Hs. inversion Hs as [|? ? Hs' Hall]; subst.
  destruct Hy as [<-|Hy].
  - rewrite Forall_forall in Hall. apply Hall. apply in_or_app.
    right. left. reflexivity.
  - eapply IH; eassumption.
Qed.

(** X1. The built map has an entry under an interface and a property name
    exactly when the class's own body binds some name to a [property] made
    for that interface and property name. *)
Theorem build_registered_iff_declared : forall ct cls i k,
  registered (fst (Object._build_property_iface_map ct cls)) i k = true
  <-> exists name, declares ct cls i k name = true.
Proof.
  intros ct cls i k.
  assert (Hreg : forall m, registered m i k = true <-> resolve m i k <> None).
  { intro m. unfold registered, resolve, dict_mem.
    destruct (dict_get String.eqb m i) as [props|];
      [|split; [discriminate | congruence]].
    destruct (dict_get okey_eqb props k);
      split; congruence || discriminate. }
  rewrite Hreg, build_resolve. split.
  - intro H.
    destruct (find (declares ct cls i k) (rev (dir ct cls))) as [name|] eqn:E;
      [|congruence].
    exists name. apply find_some in E. apply E.
  - intros [name Hn] E.
    rewrite (find_none _ _ E name) in Hn; [discriminate|].
    apply -> in_rev. eapply declares_in_dir. eassumption.
Qed.

(** X2. Where several names of the class body are bound to properties made
    for the same interface and property name, the built map gives the one
    that sorts last: the map resolves a key to [name] exactly when [name]
    is declared for the key and every other name declared for it sorts
    before [name]. *)
Theorem build_resolves_to_greatest_name : forall ct cls i k name,
  resolve (fst (Object._build_property_iface_map ct cls)) i k = Some name
  <-> declares ct cls i k name = true
      /\ forall name', declares ct cls i k name' = true ->
                       name' = name \/ String.compare name' name = Lt.
Proof.
  intros ct cls i k name.
  assert (Hfwd : forall n,
            resolve (fst (Object._build_property_iface_map ct cls)) i k
              = Some n ->
            declares ct cls i k n = true
            /\ forall name', declares ct cls i k name' = true ->
                             name' = n \/ String.compare name' n = Lt).
  { intros n H. rewrite build_resolve in H.
    destruct (find_rev_last _ _ H) as [l1 [l2 [Hl [Hn Hl2]]]].
    split; [assumption|]. intros name' Hd.
    pose proof (declares_in_dir _ _ _ _ _ Hd) as Hin. rewrite Hl in Hin.
    apply in_app_or in Hin. destruct Hin as [Hin|[Hin|Hin]].
    - right. pose proof (dir_sorted ct cls) as Hs. rewrite Hl in Hs.
      eapply sorted_before; eassumption.
    - left. symmetry. assumption.
    - rewrite (Hl2 _ Hin) in Hd. discriminate. }
  split; [apply Hfwd|].
  intros [Hd Hmax].
  destruct (resolve (fst (Object._build_property_iface_map ct cls)) i k)
    as [n|] eqn:E.
  - destruct (Hfwd n eq_refl) as [Hdn Hmaxn].
    destruct (Hmaxn _ Hd) as [->|H1]; [reflexivity|].
    destruct (Hmax _ Hdn) as [->|H2]; [reflexivity|].
    exfalso. apply (@compare_lt_irrefl name).
    eapply compare_lt_trans; eassumption.
  - exfalso. rewrite build_resolve in E.
    rewrite (find_none _ _ E name) in Hd; [discriminate|].
    apply -> in_rev. eapply declares_in_dir. eassumption.
Qed.

(** ** Get and Set when the accessor returns *)

Lemma resolve_split : forall (m : pif) i k name,
  resolve m i k = Some name ->
  exists props,
    dict_get String.eqb m i = Some props
    /\ dict_get okey_eqb props k = Some name.
Proof.
  intros m i k name H. unfold resolve in H.
  destruct (dict_get String.eqb m i) as [props|]; [|discriminate].
  exists props. auto.
Qed.

(** X3. When the getter that [Get] reaches returns a value, [Get] returns
    that value, and the state it leaves is the one the getter left: after
    the getter nothing more is logged or changed. *)
Theorem Get_returns_getter_value :
  forall ct self i k st name p getf v w2,
    resolve (index_of ct (i_class self) st) i k = Some name ->
    mro_lookup ct (mro ct (i_class self)) name = Some (OProp p) ->
    _getf p = Some getf ->
    fn_call getf self []
      (st_world (entered ct (i_class self) (get_call i k) st))
    = (Ok v, w2) ->
    Object.Get ct self i k st
    = (Ok (OVal v),
       mkState w2
         (st_pim (entered ct (i_class self) (get_call i k) st))
         (st_next (entered ct (i_class self) (get_call i k) st))
         (st_trace (entered ct (i_class self) (get_call i k) st)
          ++ [EvGetattr self name; EvCall getf self []])).
Proof.
  intros ct self i k st name p getf v w2 Hr Hl Hg Hf.
  destruct (resolve_split _ _ _ Hr) as [props [Hi Hp]].
  rewrite Get_unfold, Hi, Hp. unfold try_except.
  rewrite (getattr_property _ _ _ _ Hl Hg), Hf. reflexivity.
Qed.

Lemma Get_returns_getter_value_witness :
  resolve (index_of classes "Widget" booted) WIDGET (Some "serial")
    = Some "serial"
  /\ fst (Object.Get classes widget WIDGET (Some "serial") booted)
     = Ok (OVal (VStr "SN-1")).
Proof.
  split; [reflexivity|].
  rewrite (@Get_returns_getter_value classes widget WIDGET (Some "serial")
             booted "serial" serial
             (read_attr "serial" "_serial" (VStr "SN-1")) (VStr "SN-1")
             (st_world (entered classes "Widget"
                          (get_call WIDGET (Some "serial")) booted))
             eq_refl eq_refl eq_refl eq_refl).
  reflexivity.
Defined.

(** X4. When the setter that [Set] reaches returns, [Set] has called it
    once, on the instance and with the value alone, returns nothing
    whatever the setter returned, and leaves the state the setter left. *)
Theorem Set_calls_setter_with_value :
  forall ct self i k value st name p setf r w2,
    resolve (index_of ct (i_class self) st) i k = Some name ->
    mro_lookup ct (mro ct (i_class self)) name = Some (OProp p) ->
    _setf p = Some setf ->
    fn_call setf self [value]
      (st_world (entered ct (i_class self) (set_call i k value) st))
    = (Ok r, w2) ->
    Object.Set_ ct self i k value st
    = (Ok tt,
       mkState w2
         (st_pim (entered ct (i_class self) (set_call i k value) st))
         (st_next (entered ct (i_class self) (set_call i k value) st))
         (st_trace (entered ct (i_class self) (set_call i k value) st)
          ++ [EvSetattr self name value; EvCall setf self [value]])).
Proof.
  intros ct self i k value st name p setf r w2 Hr Hl Hs Hf.
  destruct (resolve_split _ _ _ Hr) as [props [Hi Hp]].
  rewrite Set_unfold, Hi, Hp. unfold try_except.
  rewrite (setattr_property _ _ _ _ _ Hl Hs), Hf. reflexivity.
Qed.

Lemma Set_calls_setter_with_value_witness :
  resolve (index_of classes "Widget" booted) WIDGET (Some "color")
    = Some "color"
  /\ fst (Object.Set_ classes widget WIDGET (Some "color") (VStr "blue")
            booted)
     = Ok tt
  /\ w_attrs (st_world (snd (Object.Set_ classes widget WIDGET (Some "color")
                               (VStr "blue") booted)))
     = [((0, "_color"), VStr "blue")].
Proof.
  split; [reflexivity|].
  rewrite (@Set_calls_setter_with_value classes widget WIDGET (Some "color")
             (VStr "blue") booted "color" color
             (write_attr "color" "_color") VNone
             (store widget "_color" (VStr "blue")
                (st_world (entered classes "Widget"
                             (set_call WIDGET (Some "color") (VStr "blue"))
                             booted)))
             eq_refl eq_refl eq_refl eq_refl).
  split; reflexivity.
Defined.

(** ** One-sided properties through the handlers *)

(** X5. [Get] on a property without a getter raises "property is not
    readable" and [Set] on a property without a setter raises "property is
    not writable"; the exception is not wrapped, nothing is logged for it,
    no accessor is called, and instance attributes and signals stay as
    they were. *)
Theorem handlers_refuse_one_sided_access :
  forall ct self i k value st name p,
    resolve (index_of ct (i_class self) st) i k = Some name ->
    mro_lookup ct (mro ct (i_class self)) name = Some (OProp p) ->
    (_getf p = None ->
     Object.Get ct self i k st
     = (Raise Property.not_readable,
        mkState
          (st_world (entered ct (i_class self) (get_call i k) st))
          (st_pim (entered ct (i_class self) (get_call i k) st))
          (st_next (entered ct (i_class self) (get_call i k) st))
          (st_trace st ++ [EvGetattr self name]))
     /\ w_attrs (st_world (snd (Object.Get ct self i k st)))
        = w_attrs (st_world st)
     /\ w_signals (st_world (snd (Object.Get ct self i k st)))
        = w_signals (st_world st))
    /\ (_setf p = None ->
        Object.Set_ ct self i k value st
        = (Raise Property.not_writable,
           mkState
             (st_world (entered ct (i_class self) (set_call i k value) st))
             (st_pim (entered ct (i_class self) (set_call i k value) st))
             (st_next (entered ct (i_class self) (set_call i k value) st))
             (st_trace st ++ [EvSetattr self name value]))
        /\ w_attrs (st_world (snd (Object.Set_ ct self i k value st)))
           = w_attrs (st_world st)
        /\ w_signals (st_world (snd (Object.Set_ ct self i k value st)))
           = w_signals (st_world st)).
Proof.
  intros ct self i k value st name p Hr Hl.
  destruct (resolve_split _ _ _ Hr) as [props [Hi Hp]].
  split; intro Hn.
  - pose proof (entered_facts ct (i_class self) (get_call i k) st)
      as [d [_ [_ [_ [Ht [Ha Hs]]]]]].
    rewrite Get_unfold, Hi, Hp.
    unfold try_except, getattr, bind, ghost. cbv beta iota. rewrite Hl.
    unfold Property.__get__. rewrite Hn. simpl. rewrite Ht. auto.
  - pose proof (entered_facts ct (i_class self) (set_call i k value) st)
      as [d [_ [_ [_ [Ht [Ha Hs]]]]]].
    rewrite Set_unfold, Hi, Hp.
    unfold try_except, setattr, bind, ghost. cbv beta iota. rewrite Hl.
    unfold Property.__set__. rewrite Hn. simpl. rewrite Ht. auto.
Qed.

Lemma handlers_refuse_one_sided_access_witness :
  fst (Object.Get classes widget AUTH (Some "password") booted)
    = Raise Property.not_readable
  /\ fst (Object.Set_ classes widget WIDGET (Some "serial") (VStr "x") booted)
     = Raise Property.not_writable.
Proof.
  split.
  - destruct (@handlers_refuse_one_sided_access classes widget AUTH
                (Some "password") VNone booted "password" password
                eq_refl eq_refl) as [H _].
    rewrite (proj1 (H eq_refl)). reflexivity.
  - destruct (@handlers_refuse_one_sided_access classes widget WIDGET
                (Some "serial") (VStr "x") booted "serial" serial
                eq_refl eq_refl) as [_ H].
    rewrite (proj1 (H eq_refl)). reflexivity.
Defined.

(** ** A write followed by a read *)

Lemma entered_world_cached : forall ct cls r st d,
  Object.class_pim st (mro ct cls) = Some d ->
  st_world (entered ct cls r st) = w_logger r (st_world st).
Proof.
  intros ct cls r st d H. rewrite (entered_cached _ _ _ _ H). reflexivity.
Qed.

(** X6. Let the setter of a property always return and leave the world in
    a condition, kept by logging, in which the getter returns the value
    that was written.  Then [Set] with that value succeeds and a [Get]
    right after it returns the value. *)
Theorem Set_then_Get_returns_value :
  forall ct self i k value st name p getf setf (stored : world -> Prop),
    resolve (index_of ct (i_class self) st) i k = Some name ->
    mro_lookup ct (mro ct (i_class self)) name = Some (OProp p) ->
    _getf p = Some getf ->
    _setf p = Some setf ->
    (forall w, exists r w',
        fn_call setf self [value] w = (Ok r, w') /\ stored w') ->
    (forall w r, stored w -> stored (w_logger r w)) ->
    (forall w, stored w ->
               exists w', fn_call getf self [] w = (Ok value, w')) ->
    fst (Object.Set_ ct self i k value st) = Ok tt
    /\ fst (Object.Get ct self i k (snd (Object.Set_ ct self i k value st)))
       = Ok (OVal value).
Proof.
  intros ct self i k value st name p getf setf stored Hr Hl Hg Hs
         Hset Hlog Hget.
  destruct (Hset (st_world (entered ct (i_class self) (set_call i k value) st)))
    as [r [w' [Hcall Hst]]].
  rewrite (Set_calls_setter_with_value _ _ _ _ _ _ Hr Hl Hs Hcall).
  split; [reflexivity|]. simpl snd.
  destruct (entered_facts ct (i_class self) (set_call i k value) st)
    as [d [_ [Hd [Hc _]]]].
  set (st2 := mkState w'
                (st_pim (entered ct (i_class self) (set_call i k value) st))
                (st_next (entered ct (i_class self) (set_call i k value) st))
                (st_trace (entered ct (i_class self) (set_call i k value) st)
                 ++ [EvSetattr self name value; EvCall setf self [value]])).
  assert (Hc2 : Object.class_pim st2 (mro ct (i_class self)) = Some d).
  { rewrite <- Hc. apply class_pim_ext. reflexivity. }
  assert (Hr2 : resolve (index_of ct (i_class self) st2) i k = Some name).
  { rewrite (index_of_cached _ _ _ Hc2), Hd. assumption. }
  destruct (Hget (st_world (entered ct (i_class self) (get_call i k) st2)))
    as [w'' Hcall2].
  { rewrite (entered_world_cached _ _ _ _ Hc2). apply Hlog. assumption. }
  rewrite (Get_returns_getter_value _ _ _ _ _ Hr2 Hl Hg Hcall2).
  reflexivity.
Qed.

Lemma Set_then_Get_returns_value_witness :
  fst (Object.Set_ classes widget WIDGET (Some "color") (VStr "blue") booted)
    = Ok tt
  /\ fst (Object.Get classes widget WIDGET (Some "color")
            (snd (Object.Set_ classes widget WIDGET (Some "color")
                    (VStr "blue") booted)))
     = Ok (OVal (VStr "blue")).
Proof.
  apply (@Set_then_Get_returns_value classes widget WIDGET (Some "color")
           (VStr "blue") booted "color" color
           (read_attr "color" "_color" (VStr "red"))
           (write_attr "color" "_color")
           (fun w => dict_get sn_eqb (w_attrs w) (0, "_color")
                     = Some (VStr "blue"))
           eq_refl eq_refl eq_refl eq_refl).
  - intro w. exists VNone, (store widget "_color" (VStr "blue") w).
    split; [reflexivity|]. simpl.
    apply (@dict_get_set_same (nat * string) pyval sn_eqb).
    intros [a1 a2] [b1 b2]. unfold sn_eqb. simpl.
    rewrite andb_true_iff, Nat.eqb_eq, String.eqb_eq.
    split; [intros [-> ->]; reflexivity | intro H; inversion H; auto].
  - intros w r H. exact H.
  - intros w H. exists w. simpl. rewrite H. reflexivity.
Defined.

(** ** GetAll over a whole interface *)

Lemma Get_keeps_cached_map : forall ct self i k st d,
  Object.class_pim st (mro ct (i_class self)) = Some d ->
  Object.class_pim (snd (Object.Get ct self i k st)) (mro ct (i_class self))
  = Some d.
Proof.
  intros ct self i k st d H. rewrite <- H. apply class_pim_ext.
  apply (Get_cached ct self i k st H).
Qed.

Lemma comprehension_fails_at : forall ct self i k names d,
  In k names ->
  (forall st, Object.class_pim st (mro ct (i_class self)) = Some d ->
              exists e st', Object.Get ct self i k st = (Raise e, st')) ->
  forall acc st,
    Object.class_pim st (mro ct (i_class self)) = Some d ->
    exists e st',
      Object.comprehension (Object.Get ct self i) names acc st
      = (Raise e, st').
Proof.
  intros ct self i k names d Hin Hk.
  induction names as [|n names IH]; intros acc st Hc; [contradiction|].
  simpl. unfold bind.
  destruct (Object.Get ct self i n st) as [[v|e] st1] eqn:E.
  - destruct Hin as [->|Hin].
    + destruct (Hk st Hc) as [e [st' H]]. congruence.
    + apply IH; [assumption|].
      pose proof (Get_keeps_cached_map ct self i n st Hc) as H.
      rewrite E in H. exact H.
  - eauto.
Qed.

(** X7. If an interface of the object's map has a property without a
    getter, [GetAll] on that interface never returns a dictionary: it
    raises, whatever the other properties of the interface are. *)
Theorem GetAll_fails_with_write_only_property :
  forall ct self i k st name p,
    resolve (index_of ct (i_class self) st) i k = Some name ->
    mro_lookup ct (mro ct (i_class self)) name = Some (OProp p) ->
    _getf p = None ->
    exists e st', Object.GetAll ct self i st = (Raise e, st').
Proof.
  intros ct self i k st name p Hr Hl Hn.
  destruct (resolve_split _ _ _ Hr) as [props [Hi Hp]].
  destruct (entered_facts ct (i_class self) (getall_call i) st)
    as [d [_ [Hd [Hc _]]]].
  rewrite GetAll_unfold, Hi.
  apply (@comprehension_fails_at ct self i k (dict_keys props) d).
  - apply (dict_mem_keys okey_eqb okey_eqb_eq). unfold dict_mem.
    rewrite Hp. reflexivity.
  - intros st1 Hc1.
    assert (Hr1 : resolve (index_of ct (i_class self) st1) i k = Some name)
      by (rewrite (index_of_cached _ _ _ Hc1), Hd; assumption).
    destruct (@handlers_refuse_one_sided_access ct self i k VNone st1 name p
                Hr1 Hl) as [H _].
    destruct (H Hn) as [H' _]. eauto.
  - assumption.
Qed.

Lemma GetAll_fails_with_write_only_property_witness :
  resolve (index_of classes "Widget" booted) AUTH (Some "password")
    = Some "password"
  /\ exists e st', Object.GetAll classes widget AUTH booted = (Raise e, st').
Proof.
  split; [reflexivity|].
  exact (@GetAll_fails_with_write_only_property classes widget AUTH
           (Some "password") booted "password" password
           eq_refl eq_refl eq_refl).
Defined.

Lemma comprehension_succeeds : forall ct self i names d,
  (forall k st, In k names ->
                Object.class_pim st (mro ct (i_class self)) = Some d ->
                exists v st', Object.Get ct self i k st = (Ok v, st')) ->
  forall acc st,
    Object.class_pim st (mro ct (i_class self)) = Some d ->
    exists m st',
      Object.comprehension (Object.Get ct self i) names acc st = (Ok m, st').
Proof.
  intros ct self i names d. induction names as [|n names IH];
    intros Hget acc st Hc; simpl.
  - exists acc, st. reflexivity.
  - unfold bind. destruct (Hget n st (or_introl eq_refl) Hc) as [v [st1 E]].
    rewrite E. apply IH.
    + intros k st0 Hin. apply Hget. right. assumption.
    + pose proof (Get_keeps_cached_map ct self i n st Hc) as H.
      rewrite E in H. exact H.
Qed.

(** X8. If every name under an interface of the object's map leads to a
    property whose getter returns in every world, [GetAll] on that
    interface returns a dictionary, and its keys are exactly the property
    names under the interface. *)
Theorem GetAll_succeeds_with_total_getters :
  forall ct self i st props,
    dict_get String.eqb (index_of ct (i_class self) st) i = Some props ->
    (forall k name,
       dict_get okey_eqb props k = Some name ->
       exists p getf,
         mro_lookup ct (mro ct (i_class self)) name = Some (OProp p)
         /\ _getf p = Some getf
         /\ forall w, exists v w', fn_call getf self [] w = (Ok v, w')) ->
    exists m st',
      Object.GetAll ct self i st = (Ok m, st')
      /\ forall k, dict_mem okey_eqb m k = dict_mem okey_eqb props k.
Proof.
  intros ct self i st props Hi Hall.
  destruct (entered_facts ct (i_class self) (getall_call i) st)
    as [d [_ [Hd [Hc _]]]].
  rewrite GetAll_unfold, Hi.
  destruct (@comprehension_succeeds ct self i (dict_keys props) d) with
    (acc := @nil (option string * pyobj))
    (st := entered ct (i_class self) (getall_call i) st)
    as [m [st' E]]; [|assumption|].
  - intros k st1 Hin Hc1.
    apply (dict_mem_keys okey_eqb okey_eqb_eq) in Hin. unfold dict_mem in Hin.
    destruct (dict_get okey_eqb props k) as [name|] eqn:Hp; [|discriminate].
    destruct (Hall _ _ Hp) as [p [getf [Hl [Hg Htot]]]].
    destruct (Htot (st_world (entered ct (i_class self) (get_call i k) st1)))
      as [v [w' Hcall]].
    assert (Hr1 : resolve (index_of ct (i_class self) st1) i k = Some name).
    { rewrite (index_of_cached _ _ _ Hc1), Hd. unfold resolve.
      rewrite Hi. assumption. }
    rewrite (Get_returns_getter_value _ _ _ _ _ Hr1 Hl Hg Hcall). eauto.
  - exists m, st'. split; [assumption|]. intro k.
    rewrite (comprehension_ok_keys _ _ _ _ E k). simpl.
    apply existsb_keys.
Qed.

Lemma GetAll_succeeds_with_total_getters_witness :
  dict_get String.eqb (index_of classes "Widget" booted) WIDGET
    = Some [(Some "color", "color"); (Some "serial", "serial");
            (Some "size", "size")]
  /\ exists m st',
       Object.GetAll classes widget WIDGET booted = (Ok m, st')
       /\ forall k,
            dict_mem okey_eqb m k
            = dict_mem okey_eqb
                [(Some "color", "color"); (Some "serial", "serial");
                 (Some "size", "size")] k.
Proof.
  split; [reflexivity|].
  apply (@GetAll_succeeds_with_total_getters classes widget WIDGET booted
           [(Some "color", "color"); (Some "serial", "serial");
            (Some "size", "size")] eq_refl).
  intros k name H. simpl in H.
  destruct (okey_eqb k (Some "color")).
  { inversion H. subst name.
    exists color, (read_attr "color" "_color" (VStr "red")).
    repeat split. intro w. eexists. eexists. reflexivity. }
  destruct (okey_eqb k (Some "serial")).
  { inversion H. subst name.
    exists serial, (read_attr "serial" "_serial" (VStr "SN-1")).
    repeat split. intro w. eexists. eexists. reflexivity. }
  destruct (okey_eqb k (Some "size")); [|discriminate].
  inversion H. subst name.
  exists size, (read_attr "size" "_size" (VInt 1)).
  repeat split. intro w. eexists. eexists. reflexivity.
Defined.

(** ** The cache, once more *)

(** X9. Once a lookup has built the map of a class, every later lookup for
    that class, after any number of handler calls, lookups for any class
    and instance creations, returns the very object the first one
    returned and changes nothing. *)
Theorem lookup_reuses_built_map : forall ct cls st ops,
  Object.class_pim st (mro ct cls) = None ->
  fst (Object._get_property_iface_map ct cls st)
  = Ok (mkDictObj (st_next st)
          (fst (Object._build_property_iface_map ct cls)))
  /\ Object._get_property_iface_map ct cls
       (run ct ops (snd (Object._get_property_iface_map ct cls st)))
     = (Ok (mkDictObj (st_next st)
              (fst (Object._build_property_iface_map ct cls))),
        run ct ops (snd (Object._get_property_iface_map ct cls st))).
Proof.
  intros ct cls st ops H.
  rewrite (lookup_build _ _ _ H). split; [reflexivity|].
  apply lookup_cached. unfold mro. cbn [Object.class_pim snd].
  erewrite own_map_kept; [reflexivity|].
  simpl. apply (dict_get_set_same String.eqb String.eqb_eq).
Qed.

Lemma lookup_reuses_built_map_witness :
  Object.class_pim booted (mro classes "Widget") = None
  /\ Object._get_property_iface_map classes "Widget"
       (run classes
          [OpGet widget WIDGET (Some "color"); OpNew "Widget";
           OpLookup "Gadget"; OpGetAll gadget WIDGET]
          (snd (Object._get_property_iface_map classes "Widget" booted)))
     = (Ok (mkDictObj 2
              (fst (Object._build_property_iface_map classes "Widget"))),
        run classes
          [OpGet widget WIDGET (Some "color"); OpNew "Widget";
           OpLookup "Gadget"; OpGetAll gadget WIDGET]
          (snd (Object._get_property_iface_map classes "Widget" booted))).
Proof.
  split; [reflexivity|].
  exact (proj2 (@lookup_reuses_built_map classes "Widget" booted
                  [OpGet widget WIDGET (Some "color"); OpNew "Widget";
                   OpLookup "Gadget"; OpGetAll gadget WIDGET]
                  eq_refl)).
Defined.

Lemma distinct_ids_lookup : forall ct cls st,
  (forall c d, dict_get String.eqb (st_pim st) c = Some d ->
               d_id d < st_next st) ->
  (forall c1 c2 d1 d2,
     dict_get String.eqb (st_pim st) c1 = Some d1 ->
     dict_get String.eqb (st_pim st) c2 = Some d2 ->
     c1 <> c2 -> d_id d1 <> d_id d2) ->
  forall c1 c2 d1 d2,
    dict_get String.eqb
      (st_pim (snd (Object._get_property_iface_map ct cls st))) c1 = Some d1 ->
    dict_get String.eqb
      (st_pim (snd (Object._get_property_iface_map ct cls st))) c2 = Some d2 ->
    c1 <> c2 -> d_id d1 <> d_id d2.
Proof.
  intros ct cls st Hlt Hd c1 c2 d1 d2.
  destruct (Object.class_pim st (mro ct cls)) as [d|] eqn:E.
  - rewrite (lookup_cached _ _ _ E). apply Hd.
  - rewrite (lookup_build _ _ _ E). simpl. intros H1 H2 Hne.
    destruct (String.eqb c1 cls) eqn:E1; destruct (String.eqb c2 cls) eqn:E2.
    + apply String.eqb_eq in E1, E2. congruence.
    + apply String.eqb_eq in E1. apply String.eqb_neq in E2. subst c1.
      rewrite (dict_get_set_same String.eqb String.eqb_eq) in H1.
      rewrite (dict_get_set_other String.eqb String.eqb_eq) in H2;
        [|assumption].
      inversion H1. subst d1. simpl. pose proof (Hlt _ _ H2). lia.
    + apply String.eqb_eq in E2. apply String.eqb_neq in E1. subst c2.
      rewrite (dict_get_set_same String.eqb String.eqb_eq) in H2.
      rewrite (dict_get_set_other String.eqb String.eqb_eq) in H1;
        [|assumption].
      inversion H2. subst d2. simpl. pose proof (Hlt _ _ H1). lia.
    + apply String.eqb_neq in E1, E2.
      rewrite (dict_get_set_other String.eqb String.eqb_eq) in H1, H2;
        try assumption.
      eapply Hd; eassumption.
Qed.

(** X10. Along every run from the initial state, the map a class holds in
    its own [__dict__] is the one built from that class's body, and two
    different classes never hold the same dictionary object. *)
Theorem cached_maps_are_own_and_distinct : forall ct ops c1 c2 d1 d2,
  dict_get String.eqb (st_pim (run ct ops init_state)) c1 = Some d1 ->
  dict_get String.eqb (st_pim (run ct ops init_state)) c2 = Some d2 ->
  d_items d1 = fst (Object._build_property_iface_map ct c1)
  /\ (c1 <> c2 -> d_id d1 <> d_id d2).
Proof.
  intros ct ops c1 c2 d1 d2 H1 H2.
  assert (Hinv : cache_sound ct (run ct ops init_state)
                 /\ forall a b da db,
                      dict_get String.eqb (st_pim (run ct ops init_state)) a
                        = Some da ->
                      dict_get String.eqb (st_pim (run ct ops init_state)) b
                        = Some db ->
                      a <> b -> d_id da <> d_id db).
  { apply (@inv_run ct
             (fun s => cache_sound ct s
                       /\ forall a b da db,
                            dict_get String.eqb (st_pim s) a = Some da ->
                            dict_get String.eqb (st_pim s) b = Some db ->
                            a <> b -> d_id da <> d_id db)).
    - intros s s' Hf [Hs Hd]. split; [eapply cache_sound_frame; eassumption|].
      destruct Hf as [Hp _]. rewrite Hp. assumption.
    - intros cls s [Hs Hd]. split; [apply cache_sound_lookup; assumption|].
      apply distinct_ids_lookup; [|assumption].
      intros c d Hc. apply (Hs _ _ Hc).
    - intros cls s [Hs Hd]. split; [|assumption].
      intros c d Hc. simpl in *. destruct (Hs _ _ Hc). split; [assumption|lia].
    - split; [apply cache_sound_init|]. intros a b da db H. discriminate. }
  destruct Hinv as [Hs Hd]. split.
  - apply (Hs _ _ H1).
  - eapply Hd; eassumption.
Qed.

Lemma cached_maps_are_own_and_distinct_witness :
  dict_get String.eqb
    (st_pim (run classes
               [OpNew "Widget"; OpNew "Gadget"; OpLookup "Gadget";
                OpLookup "Widget"] init_state)) "Gadget"
    = Some (mkDictObj 2 gadget_map)
  /\ dict_get String.eqb
       (st_pim (run classes
                  [OpNew "Widget"; OpNew "Gadget"; OpLookup "Gadget";
                   OpLookup "Widget"] init_state)) "Widget"
     = Some (mkDictObj 3 widget_map)
  /\ gadget_map = fst (Object._build_property_iface_map classes "Gadget").
Proof.
  split; [reflexivity|]. split; [reflexivity|].
  exact (proj1 (@cached_maps_are_own_and_distinct classes
                  [OpNew "Widget"; OpNew "Gadget"; OpLookup "Gadget";
                   OpLookup "Widget"]
                  "Gadget" "Widget" (mkDictObj 2 gadget_map)
                  (mkDictObj 3 widget_map) eq_refl eq_refl)).
Defined.

(** ** What the handlers do to the classes *)

Lemma same_classes_trans : forall a b c,
  same_classes a b -> same_classes b c -> same_classes a c.
Proof. intros a b c [H1 H2] [H3 H4]. split; congruence. Qed.

Lemma lookup_effect_entered : forall ct cls r st,
  lookup_effect ct cls st (entered ct cls r st).
Proof.
  intros ct cls r st. unfold lookup_effect, entered.
  destruct (Object.class_pim st (mro ct cls)) as [d|] eqn:E.
  - rewrite (lookup_cached ct cls (snd (logger r st)) (d := d)).
    + split; reflexivity.
    + rewrite (class_pim_ext st); [assumption | reflexivity].
  - rewrite lookup_build.
    + split; reflexivity.
    + rewrite (class_pim_ext st); [assumption | reflexivity].
Qed.

Lemma lookup_effect_frame : forall ct cls st st1 st2,
  lookup_effect ct cls st st1 -> same_classes st1 st2 ->
  lookup_effect ct cls st st2.
Proof.
  intros ct cls st st1 st2. unfold lookup_effect.
  destruct (Object.class_pim st (mro ct cls)).
  - apply same_classes_trans.
  - intros [H1 H2] [H3 H4]. split; congruence.
Qed.

Lemma GetAll_frame : forall ct self i st,
  same_classes (entered ct (i_class self) (getall_call i) st)
               (snd (Object.GetAll ct self i st)).
Proof.
  intros ct self i st.
  destruct (entered_facts ct (i_class self) (getall_call i) st)
    as [d [_ [_ [Hc _]]]].
  rewrite GetAll_unfold.
  destruct (dict_get String.eqb (index_of ct (i_class self) st) i);
    [|split; reflexivity].
  apply (comprehension_invariant
           (fun st' =>
              same_classes (entered ct (i_class self) (getall_call i) st)
                           st')).
  - intros k st1 Hs.
    assert (Hc1 : Object.class_pim st1 (mro ct (i_class self)) = Some d).
    { rewrite <- Hc. apply class_pim_ext. apply Hs. }
    eapply same_classes_trans; [exact Hs|].
    pose proof (Get_frame ct self i k st1) as Hf.
    rewrite (entered_cached _ _ _ _ Hc1) in Hf.
    destruct Hf as [H1 H2]. split; [exact H1 | exact H2].
  - split; reflexivity.
Qed.

(** X11. A call of [Get], [Set] or [GetAll] changes the class attributes
    in one way only: when attribute lookup finds no map for the instance's
    class, the freshly built map is assigned to that class; when it finds
    one, nothing is assigned and nothing is built.  No handler ever
    replaces a map or assigns one to another class. *)
Theorem handlers_assign_at_most_own_map : forall ct self i k value st,
  lookup_effect ct (i_class self) st (snd (Object.Get ct self i k st))
  /\ lookup_effect ct (i_class self) st
       (snd (Object.Set_ ct self i k value st))
  /\ lookup_effect ct (i_class self) st (snd (Object.GetAll ct self i st)).
Proof.
  intros ct self i k value st. repeat split.
  - eapply lookup_effect_frame;
      [apply lookup_effect_entered | apply Get_frame].
  - eapply lookup_effect_frame;
      [apply lookup_effect_entered | apply Set_frame].
  - eapply lookup_effect_frame;
      [apply lookup_effect_entered | apply GetAll_frame].
Qed.

(** ** The names the handlers resolve *)

Lemma class_pim_holder : forall st l d,
  Object.class_pim st l = Some d ->
  exists c, In c l /\ dict_get String.eqb (st_pim st) c = Some d.
Proof.
  intros st l d. induction l as [|c l IH]; simpl; [discriminate|].
  destruct (dict_get String.eqb (st_pim st) c) as [d'|] eqn:E.
  - intro H. inversion H. subst d'. exists c. auto.
  - intro H. destruct (IH H) as [c' [Hin Hc']]. exists c'. auto.
Qed.

Lemma mro_lookup_finds : forall ct l c name o,
  In c l -> dict_get String.eqb (class_dict ct c) name = Some o ->
  exists o', mro_lookup ct l name = Some o'.
Proof.
  intros ct l c name o. induction l as [|a l IH]; intros Hin Hc;
    [contradiction|].
  simpl. destruct (dict_get String.eqb (class_dict ct a) name) as [oa|] eqn:E.
  - eauto.
  - destruct Hin as [->|Hin]; [congruence | apply IH; assumption].
Qed.

(** X12. Along every run from the initial state, every attribute name that
    the map of an instance's class gives for some interface and property
    name is bound along the MRO of that class, so the [getattr] or
    [setattr] of a handler never fails for want of the attribute.  When
    the class has no map yet or holds its own, the name is bound to a
    [property] made for exactly that interface and property name. *)
Theorem resolved_names_are_bound : forall ct ops cls i k name,
  resolve (index_of ct cls (run ct ops init_state)) i k = Some name ->
  (exists o, mro_lookup ct (mro ct cls) name = Some o)
  /\ (Object.class_pim (run ct ops init_state) (mro ct cls) = None
      \/ dict_get String.eqb (st_pim (run ct ops init_state)) cls <> None ->
      exists obj,
        mro_lookup ct (mro ct cls) name = Some (OProp obj)
        /\ _dbus_interface obj = i /\ _dbus_property obj = k).
Proof.
  intros ct ops cls i k name Hr.
  pose proof (cache_sound_run ops (cache_sound_init ct)) as Hs.
  set (st := run ct ops init_state) in *.
  assert (Hown : resolve (fst (Object._build_property_iface_map ct cls)) i k
                 = Some name ->
                 exists obj,
                   mro_lookup ct (mro ct cls) name = Some (OProp obj)
                   /\ _dbus_interface obj = i /\ _dbus_property obj = k).
  { intro H. apply build_resolves_to_greatest_name in H.
    destruct H as [Hd _]. unfold declares in Hd.
    destruct (dict_get String.eqb (class_dict ct cls) name)
      as [[obj|v]|] eqn:E; try discriminate.
    apply andb_true_iff in Hd. destruct Hd as [Hi Hk].
    apply String.eqb_eq in Hi. apply okey_eqb_eq in Hk.
    exists obj. unfold mro. simpl. rewrite E. auto. }
  split.
  - unfold index_of in Hr.
    destruct (Object.class_pim st (mro ct cls)) as [d|] eqn:E.
    + destruct (class_pim_holder _ _ E) as [c [Hin Hc]].
      destruct (Hs _ _ Hc) as [Hitems _]. rewrite Hitems in Hr.
      destruct (resolve_split _ _ _ Hr) as [props [Hi Hp]].
      assert (Hn : In name (pif_names
                         (fst (Object._build_property_iface_map ct c))))
        by (eapply pif_names_lookup; eassumption).
      apply build_names_declared in Hn. unfold is_declared in Hn.
      destruct (dict_get String.eqb (class_dict ct c) name) as [o|] eqn:Eo;
        [|discriminate].
      eapply mro_lookup_finds; eassumption.
    + destruct (Hown Hr) as [obj [H _]]. eauto.
  - intros [Hnone|Hself]; unfold index_of in Hr.
    + rewrite Hnone in Hr. apply Hown. assumption.
    + unfold mro in Hr. simpl in Hr.
      destruct (dict_get String.eqb (st_pim st) cls) as [d|] eqn:E;
        [|congruence].
      destruct (Hs _ _ E) as [Hitems _]. rewrite Hitems in Hr.
      apply Hown. assumption.
Qed.

Lemma resolved_names_are_bound_witness :
  resolve (index_of classes "Gadget" widget_first) WIDGET (Some "color")
    = Some "color"
  /\ exists o, mro_lookup classes (mro classes "Gadget") "color" = Some o.
Proof.
  split; [reflexivity|].
  exact (proj1 (@resolved_names_are_bound classes
                  [OpNew "Widget"; OpNew "Gadget"; OpLookup "Widget"]
                  "Gadget" WIDGET (Some "color") "color" eq_refl)).
Defined.

(** ** Decorating *)

(** X13. A function decorated with [property(signature, interface, name,
    setter)] gives a descriptor that is never ill-defined: it goes by the
    explicit name, or else by the function's name; it is read-only, or
    write-only with [setter=True]; binding the other accessor makes it
    read-write; and [_reflect_on_property] renders it without raising. *)
Theorem decorated_property_is_well_defined :
  forall signature iface explicit implicit_setter func other,
    _dbus_property
      (Property.__call__
         (Property.__init__ signature iface explicit implicit_setter) func)
    = Some (match explicit with Some n => n | None => fn_name func end)
    /\ Property.dbus_access_flag
         (Property.__call__
            (Property.__init__ signature iface explicit implicit_setter) func)
       = Ok (if implicit_setter then "write" else "read")
    /\ Property.dbus_access_flag
         ((if implicit_setter then Property.getter else Property.setter)
            (Property.__call__
               (Property.__init__ signature iface explicit implicit_setter)
               func)
            other)
       = Ok "readwrite"
    /\ exists text,
         InterfaceType._reflect_on_property
           (Property.__call__
              (Property.__init__ signature iface explicit implicit_setter)
              func)
         = Ok text.
Proof.
  intros signature iface explicit [|] func other;
    destruct explicit as [n|]; repeat split; eexists; reflexivity.
Qed.

(** ** Introspect *)

Import IntrospectExamples.

Lemma string_app_assoc : forall a b c : string,
  ((a ++ b) ++ c = a ++ (b ++ c))%string.
Proof.
  induction a as [|x a IH]; intros b c; simpl; [reflexivity|].
  rewrite IH. reflexivity.
Qed.

Lemma string_app_nil_r : forall a : string, (a ++ "" = a)%string.
Proof.
  induction a as [|x a IH]; simpl; [reflexivity|]. rewrite IH. reflexivity.
Qed.

Lemma reflect_member_cases : forall func,
  entry_reflects func ->
  if ill_defined_member func
  then reflect_member func = Raise Property.ill_defined
  else reflect_member func = Ok (member_text func).
Proof.
  intros [r|r|p|] H; unfold member_text; simpl in *.
  - destruct H as [t ->]. reflexivity.
  - destruct H as [t ->]. reflexivity.
  - unfold InterfaceType._reflect_on_property, Property.dbus_access_flag.
    destruct (_getf p), (_setf p); reflexivity.
  - reflexivity.
Qed.

Lemma reflect_funcs_cases : forall funcs data,
  (forall func, In func funcs -> entry_reflects func) ->
  if existsb ill_defined_member funcs
  then reflect_funcs funcs data = Raise Property.ill_defined
  else reflect_funcs funcs data
       = Ok (data ++ String.concat "" (map member_text funcs))%string.
Proof.
  induction funcs as [|func funcs IH]; intros data H; simpl.
  - rewrite string_app_nil_r. reflexivity.
  - pose proof (reflect_member_cases func (H func (or_introl eq_refl))) as Hm.
    destruct (ill_defined_member func); simpl; rewrite Hm; [reflexivity|].
    assert (H' : forall f, In f funcs -> entry_reflects f)
      by (intros f Hf; apply H; right; assumption).
    pose proof (IH (data ++ member_text func)%string H') as Hr.
    destruct (existsb ill_defined_member funcs); rewrite Hr; [reflexivity|].
    rewrite string_app_assoc. f_equal. f_equal.
    destruct funcs; simpl; [apply string_app_nil_r | reflexivity].
Qed.

Lemma concat_empty_cons : forall x l,
  String.concat "" (x :: l) = (x ++ String.concat "" l)%string.
Proof.
  intros x [|y l]; simpl; [symmetry; apply string_app_nil_r | reflexivity].
Qed.

Lemma reflect_interfaces_cases : forall interfaces data,
  table_reflects interfaces ->
  if table_ill_defined interfaces
  then reflect_interfaces interfaces data = Raise Property.ill_defined
  else reflect_interfaces interfaces data
       = Ok (data ++ String.concat "" (map interface_block interfaces))%string.
Proof.
  unfold table_ill_defined.
  induction interfaces as [|[name funcs] rest IH]; intros data H.
  - simpl. rewrite string_app_nil_r. reflexivity.
  - assert (Hf : forall func, In func (dict_values funcs) ->
                              entry_reflects func)
      by (intros func Hin; apply (H name funcs func); [left|]; auto).
    assert (Hrest : table_reflects rest)
      by (intros n fs f Hn Hin; apply (H n fs f); [right|]; assumption).
    cbn [existsb reflect_interfaces map snd].
    pose proof (reflect_funcs_cases (dict_values funcs)
                  (data ++ interface_open name)%string Hf) as Hr.
    destruct (existsb ill_defined_member (dict_values funcs));
      cbn [orb]; rewrite Hr; [reflexivity|].
    pose proof (IH ((data ++ interface_open name)
                    ++ String.concat "" (map member_text (dict_values funcs))
                    ++ interface_close)%string Hrest) as Hi.
    rewrite ?string_app_assoc.
    rewrite ?string_app_assoc in Hi.
    destruct (existsb
                (fun e => existsb ill_defined_member (dict_values (snd e)))
                rest); rewrite Hi; [reflexivity|].
    rewrite concat_empty_cons. unfold interface_block at 2. cbn [fst snd].
    rewrite ?string_app_assoc. reflexivity.
Qed.

Lemma reflect_children_eq : forall names data,
  reflect_children names data
  = (data ++ String.concat "" (map child_node names))%string.
Proof.
  unfold reflect_children.
  induction names as [|n names IH]; intro data; simpl fold_left.
  - simpl. rewrite string_app_nil_r. reflexivity.
  - rewrite IH. cbn [map]. rewrite concat_empty_cons.
    rewrite string_app_assoc. reflexivity.
Qed.

(** X14. [Introspect] raises [KeyError] when the class table has no entry
    for the instance's class.  When the table holds a [property] with
    neither accessor, [Introspect] raises the [TypeError] of its access
    flag: no document is returned, only the entry of the call is logged
    and nothing else changes. *)
Theorem Introspect_failures : forall pkg self object_path conn st,
  (dict_get String.eqb (_dbus_class_table pkg) (class_key pkg (i_class self))
   = None ->
   fst (Introspect pkg self object_path conn st)
   = Raise (key_error (class_key pkg (i_class self))))
  /\ (forall interfaces,
        dict_get String.eqb (_dbus_class_table pkg)
          (class_key pkg (i_class self)) = Some interfaces ->
        table_reflects interfaces ->
        table_ill_defined interfaces = true ->
        Introspect pkg self object_path conn st
        = (Raise Property.ill_defined,
           snd (logger (LogDebug "Introspect(object_path=%r)"
                          [LStr object_path]) st))).
Proof.
  intros pkg self object_path conn st. unfold class_key. split.
  - intro H. unfold Introspect, bind, logger, in_world. cbv beta iota zeta.
    rewrite H. reflexivity.
  - intros interfaces H Hr Hill.
    unfold Introspect, bind, logger, in_world. cbv beta iota zeta. rewrite H.
    pose proof (@reflect_interfaces_cases interfaces
                  (DBUS_INTROSPECT_1_0_XML_DOCTYPE_DECL_NODE pkg
                   ++ node_open object_path)%string Hr) as Hc.
    rewrite Hill in Hc. rewrite Hc. reflexivity.
Qed.

Lemma Introspect_failures_witness :
  fst (Introspect package gizmo "/gizmo" bus booted)
    = Raise (key_error "example.Gizmo")
  /\ table_ill_defined bare_table = true
  /\ fst (Introspect package bare "/bare" bus booted)
     = Raise Property.ill_defined.
Proof.
  split.
  - exact (proj1 (Introspect_failures package gizmo "/gizmo" bus booted)
             eq_refl).
  - split; [reflexivity|].
    rewrite (proj2 (Introspect_failures package bare "/bare" bus booted)
               bare_table eq_refl).
    + reflexivity.
    + intros name funcs func [H|[]] Hin. inversion H. subst.
      destruct Hin as [<-|[]]. exact I.
    + reflexivity.
Defined.

(** X15. When every [property] of the class's table has an accessor,
    [Introspect] returns one document: the doctype, the opening of the
    node with the object path, one block per interface in the order of the
    table, each holding the texts of its entries in order, one node per
    exported child in order, and the closing of the node.  It logs the
    call and the document and changes nothing else. *)
Theorem Introspect_document : forall pkg self object_path conn st interfaces,
  dict_get String.eqb (_dbus_class_table pkg) (class_key pkg (i_class self))
    = Some interfaces ->
  table_reflects interfaces ->
  table_ill_defined interfaces = false ->
  Introspect pkg self object_path conn st
  = (Ok (DBUS_INTROSPECT_1_0_XML_DOCTYPE_DECL_NODE pkg
         ++ node_open object_path
         ++ String.concat "" (map interface_block interfaces)
         ++ String.concat ""
              (map child_node
                   (list_exported_child_objects conn object_path))
         ++ node_close)%string,
     mkState
       (mkWorld (w_attrs (st_world st)) (w_signals (st_world st))
          (w_log (st_world st)
           ++ [LogDebug "Introspect(object_path=%r)" [LStr object_path];
               LogDebug "Introspect() returns: %s"
                 [LStr (DBUS_INTROSPECT_1_0_XML_DOCTYPE_DECL_NODE pkg
                        ++ node_open object_path
                        ++ String.concat "" (map interface_block interfaces)
                        ++ String.concat ""
                             (map child_node
                                  (list_exported_child_objects conn
                                     object_path))
                        ++ node_close)%string]]))
       (st_pim st) (st_next st) (st_trace st)).
Proof.
  intros pkg self object_path conn st interfaces H Hr Hill.
  unfold class_key in H.
  unfold Introspect, bind, logger, in_world. cbv beta iota zeta. rewrite H.
  pose proof (@reflect_interfaces_cases interfaces
                (DBUS_INTROSPECT_1_0_XML_DOCTYPE_DECL_NODE pkg
                 ++ node_open object_path)%string Hr) as Hc.
  rewrite Hill in Hc. rewrite Hc. rewrite reflect_children_eq.
  unfold ret, w_logger.
  cbn [st_world st_pim st_next st_trace w_attrs w_signals w_log fst snd].
  rewrite <- ?app_assoc. rewrite ?string_app_assoc. reflexivity.
Qed.

Lemma widget_table_reflects : table_reflects widget_table.
Proof.
  intros name funcs func Hin Hf. unfold widget_table in Hin.
  destruct Hin as [H|[H|[]]]; inversion H; subst; simpl in Hf;
    destruct Hf as [<-|[<-|[]]]; simpl; eauto.
Qed.

Lemma Introspect_document_witness :
  table_ill_defined widget_table = false
  /\ fst (Introspect package widget "/widget" bus booted)
     = Ok ("<!DOCTYPE node>" ++ node_open "/widget"
           ++ interface_open PROPERTIES_IFACE
           ++ "    <method name='Get'/>"
           ++ "    <signal name='PropertiesChanged'/>"
           ++ interface_close
           ++ interface_open WIDGET
           ++ member_text (PropertyEntry color)
           ++ member_text (PropertyEntry serial)
           ++ interface_close
           ++ child_node "child1" ++ child_node "child2"
           ++ node_close)%string.
Proof.
  split; [reflexivity|].
  rewrite (@Introspect_document package widget "/widget" bus booted
             widget_table eq_refl widget_table_reflects eq_refl).
  reflexivity.
Defined.

Lemma occurs_refl : forall s, occurs s s.
Proof.
  intro s. exists ""%string, ""%string. simpl. symmetry.
  apply string_app_nil_r.
Qed.

Lemma occurs_trans : forall s t u, occurs s t -> occurs t u -> occurs s u.
Proof.
  intros s t u [a [b ->]] [c [d ->]].
  exists (c ++ a)%string, (b ++ d)%string.
  rewrite !string_app_assoc. reflexivity.
Qed.

Lemma occurs_app_l : forall s a b, occurs s a -> occurs s (a ++ b)%string.
Proof.
  intros s a b [x [y ->]]. exists x, (y ++ b)%string.
  rewrite !string_app_assoc. reflexivity.
Qed.

Lemma occurs_app_r : forall s a b, occurs s b -> occurs s (a ++ b)%string.
Proof.
  intros s a b [x [y ->]]. exists (a ++ x)%string, y.
  rewrite !string_app_assoc. reflexivity.
Qed.

Lemma occurs_concat : forall x l, In x l -> occurs x (String.concat "" l).
Proof.
  intros x l. induction l as [|y l IH]; intro H; [contradiction|].
  rewrite concat_empty_cons. destruct H as [->|H].
  - apply occurs_app_l, occurs_refl.
  - apply occurs_app_r, IH, H.
Qed.

(** X16. In the document [Introspect] returns, every interface of the
    class's table has its block, every [property] of an interface appears
    inside the block of that interface as the line [_reflect_on_property]
    renders, with its access flag, and every exported child has its
    node. *)
Theorem Introspect_lists_properties_and_children :
  forall pkg self object_path conn st interfaces,
    dict_get String.eqb (_dbus_class_table pkg) (class_key pkg (i_class self))
      = Some interfaces ->
    table_reflects interfaces ->
    table_ill_defined interfaces = false ->
    exists doc,
      fst (Introspect pkg self object_path conn st) = Ok doc
      /\ (forall name funcs,
            In (name, funcs) interfaces ->
            occurs (interface_block (name, funcs)) doc
            /\ forall k p,
                 In (k, PropertyEntry p) funcs ->
                 exists flag,
                   Property.dbus_access_flag p = Ok flag
                   /\ InterfaceType._reflect_on_property p
                      = Ok (member_text (PropertyEntry p))
                   /\ occurs (" access=" ++ dquote ++ flag ++ dquote)
                        (member_text (PropertyEntry p))
                   /\ occurs (member_text (PropertyEntry p))
                        (interface_block (name, funcs)))
      /\ (forall child,
            In child (list_exported_child_objects conn object_path) ->
            occurs (child_node child) doc).
Proof.
  intros pkg self object_path conn st interfaces H Hr Hill.
  rewrite (@Introspect_document pkg self object_path conn st interfaces
             H Hr Hill). cbn [fst].
  eexists. split; [reflexivity|]. split.
  - intros name funcs Hin. split.
    + apply occurs_app_r, occurs_app_r, occurs_app_l, occurs_concat.
      apply (in_map interface_block) in Hin. exact Hin.
    + intros k p Hp.
      assert (Hm : In (PropertyEntry p) (dict_values funcs)).
      { unfold dict_values. change (PropertyEntry p)
          with (snd (k, PropertyEntry p)). apply in_map. assumption. }
      assert (Hok : ill_defined_member (PropertyEntry p) = false).
      { unfold table_ill_defined in Hill.
        destruct (ill_defined_member (PropertyEntry p)) eqn:E;
          [|reflexivity].
        assert (Hex : existsb
                        (fun e : string * dict (option string) member =>
                           existsb ill_defined_member (dict_values (snd e)))
                        interfaces = true).
        { apply existsb_exists. exists (name, funcs). split; [assumption|].
          apply existsb_exists. eauto. }
        congruence. }
      pose proof (reflect_member_cases (PropertyEntry p) I) as Hc.
      rewrite Hok in Hc. simpl reflect_member in Hc.
      assert (Hflag : exists flag,
                 Property.dbus_access_flag p = Ok flag
                 /\ occurs (" access=" ++ dquote ++ flag ++ dquote)
                      (member_text (PropertyEntry p))).
      { unfold member_text. simpl reflect_member.
        unfold InterfaceType._reflect_on_property.
        simpl in Hok. unfold Property.dbus_access_flag.
        destruct (_getf p), (_setf p); try discriminate;
          eexists; (split; [reflexivity|]);
          exists ("    <property name=" ++ dquote
                  ++ str_key (_dbus_property p) ++ dquote ++ " type="
                  ++ dquote ++ _signature p ++ dquote)%string,
                 ("/>" ++ newline)%string;
          rewrite ?string_app_assoc; reflexivity. }
      destruct Hflag as [flag [Hf Ho]].
      exists flag. repeat split; try assumption.
      unfold interface_block. cbn [fst snd].
      apply occurs_app_r, occurs_app_l, occurs_concat.
      apply (in_map member_text) in Hm. exact Hm.
  - intros child Hin.
    apply occurs_app_r, occurs_app_r, occurs_app_r, occurs_app_l,
      occurs_concat.
    apply (in_map child_node) in Hin. exact Hin.
Qed.

Lemma Introspect_lists_properties_and_children_witness :
  exists doc,
    fst (Introspect package widget "/widget" bus booted) = Ok doc
    /\ occurs (member_text (PropertyEntry serial)) doc
    /\ occurs (" access=" ++ dquote ++ "read" ++ dquote)
         (member_text (PropertyEntry serial))
    /\ occurs (child_node "child2") doc.
Proof.
  destruct (@Introspect_lists_properties_and_children package widget
              "/widget" bus booted widget_table eq_refl
              widget_table_reflects eq_refl) as [doc [Hdoc [Hi Hc]]].
  exists doc. split; [exact Hdoc|].
  destruct (Hi WIDGET
              [(Some "color", PropertyEntry color);
               (Some "serial", PropertyEntry serial)]
              (or_intror (or_introl eq_refl))) as [Hb Hp].
  destruct (Hp (Some "serial") serial (or_intror (or_introl eq_refl)))
    as [flag [Hf [_ [Ho Hin]]]].
  split; [eapply occurs_trans; eassumption|].
  split.
  - assert (E : flag = "read") by (vm_compute in Hf; congruence).
    subst flag. exact Ho.
  - apply Hc. right. left. reflexivity.
Defined.
